(** * claudesidian: the web scraper ([src/web/scraper.py])

    A shallow embedding of [WebScraper] as the module is written: URL
    normalisation ([normalize_url]), the scraping pipeline ([scrape]) and
    the browser life cycle ([__init__], [_setup_puppeteer], [close]).  The
    module never binds the name [puppeteer] and the class does not define
    six of the methods it calls; the embedding keeps both facts: using the
    name raises [NameError], calling such a method raises
    [AttributeError].

    Python strings are sequences of code points.  The model takes the code
    points U+0000..U+00FF, one per Rocq character, which is closed under the
    string operations the scraper uses ([strip], [lower], concatenation,
    the two regular expressions). *)

From Stdlib Require Import String Ascii List ZArith NArith Bool Lia.
From Stdlib Require Import DecimalString.
Import ListNotations.

Local Open Scope string_scope.
Local Open Scope list_scope.

(** ** Python string primitives *)

Module PyStr.

Definition code (c : ascii) : N := N_of_ascii c.

Definition newline : ascii := ascii_of_N 10.

(** [str.isspace] on one code point below 256: TAB..CR, FS..US, space,
    NEL and NBSP. *)
Definition is_space (c : ascii) : bool :=
  let n := code c in
  ((9 <=? n) && (n <=? 13))%N || ((28 <=? n) && (n <=? 32))%N
  || (n =? 133)%N || (n =? 160)%N.

(** [\d] of a str pattern: the only decimal digits below 256 are 0-9. *)
Definition is_digit (c : ascii) : bool :=
  let n := code c in ((48 <=? n) && (n <=? 57))%N.

(** [str.lower] on one code point below 256: A-Z and the Latin-1 capitals
    (U+00C0..U+00DE except the multiplication sign) move up by 32. *)
Definition lower_char (c : ascii) : ascii :=
  let n := code c in
  if (((65 <=? n) && (n <=? 90)) ||
      ((192 <=? n) && (n <=? 222) && negb (n =? 215)))%N
  then ascii_of_N (n + 32) else c.

Fixpoint lower (s : string) : string :=
  match s with
  | EmptyString => EmptyString
  | String c s' => String (lower_char c) (lower s')
  end.

Fixpoint lstrip (s : string) : string :=
  match s with
  | EmptyString => EmptyString
  | String c s' => if is_space c then lstrip s' else s
  end.

Fixpoint rstrip (s : string) : string :=
  match s with
  | EmptyString => EmptyString
  | String c s' =>
      match rstrip s' with
      | EmptyString => if is_space c then EmptyString else String c EmptyString
      | r => String c r
      end
  end.

(** [s.strip()] *)
Definition strip (s : string) : string := rstrip (lstrip s).

(** [s.startswith(p)] *)
Definition startswith (s p : string) : bool := String.prefix p s.

Fixpoint drop (n : nat) (s : string) : string :=
  match n, s with
  | O, _ => s
  | S _, EmptyString => EmptyString
  | S n', String _ s' => drop n' s'
  end.

(** [s.endswith(suf)] *)
Definition endswith (s suf : string) : bool :=
  (String.length suf <=? String.length s)%nat
  && String.eqb (drop (String.length s - String.length suf) s) suf.

(** [f"{z}"] for an int. *)
Definition str_of_int (z : Z) : string := NilZero.string_of_int (Z.to_int z).

End PyStr.
Import PyStr.

(** ** Regular expressions of [normalize_url] *)

Module Re.

(** The match of [^.*://] against [s], as the text left after it.  The dot
    does not match a newline and the star is greedy, so the match ends
    with the last [://] of the first line. *)
Fixpoint after_last_scheme (s : string) : option string :=
  match s with
  | EmptyString => None
  | String c s' =>
      if Ascii.eqb c newline then None
      else match after_last_scheme s' with
           | Some r => Some r
           | None => if startswith s "://" then Some (drop 3 s) else None
           end
  end.

(** [re.sub(r'^.*://', '', s)]: the pattern is anchored at the start of the
    string, so at most one match is replaced. *)
Definition sub_scheme (s : string) : string :=
  match after_last_scheme s with
  | Some r => r
  | None => s
  end.

(** Length of the leading run of digits, and the text after it. *)
Fixpoint span_digits (s : string) : nat * string :=
  match s with
  | EmptyString => (O, EmptyString)
  | String c s' =>
      if is_digit c
      then let (n, r) := span_digits s' in (S n, r)
      else (O, s)
  end.

(** [\d{1,3}] followed by something that is not a digit: the text after
    the run, when the run has one to three digits. *)
Definition octet (s : string) : option string :=
  let (n, r) := span_digits s in
  if ((1 <=? n) && (n <=? 3))%nat then Some r else None.

Definition dot_octet (s : string) : option string :=
  match s with
  | String "." r => octet r
  | _ => None
  end.

(** [$] matches at the end and before a newline that ends the string. *)
Definition at_end (s : string) : bool :=
  String.eqb s EmptyString || String.eqb s (String newline EmptyString).

(** [bool(re.match(r'^\d{1,3}(\.\d{1,3}){3}$', s))] *)
Definition match_ipv4 (s : string) : bool :=
  match octet s with
  | Some r1 =>
      match dot_octet r1 with
      | Some r2 =>
          match dot_octet r2 with
          | Some r3 =>
              match dot_octet r3 with
              | Some r4 => at_end r4
              | None => false
              end
          | None => false
          end
      | None => false
      end
  | None => false
  end.

End Re.

(** ** URL normalisation *)

Definition COMMON_PROTOCOLS : list string := ["https://"; "http://"].
Definition COMMON_PREFIXES : list string := ["www."; ""].
Definition COMMON_SUFFIXES : list string :=
  [".com"; ".ai"; ".org"; ".net"; ".io"; ".co";
   ".edu"; ".gov"; ".uk"; ".de"; ".cn"; ".jp"].

(** Outcome of [session.head(candidate, allow_redirects=True)]: the request
    raises, or it yields a response with a status and the URL reached after
    the redirects. *)
Inductive probe : Type :=
| ProbeRaises
| ProbeResponse (status : Z) (final_url : string).

(** [url.strip().lower()] *)
Definition clean (input : string) : string := lower (strip input).

(** [url.startswith(('http://', 'https://'))] *)
Definition has_scheme (url : string) : bool :=
  startswith url "http://" || startswith url "https://".

(** [any(url.endswith(suffix) for suffix in self.COMMON_SUFFIXES)] *)
Definition has_known_suffix (url : string) : bool :=
  existsb (fun suffix => endswith url suffix) COMMON_SUFFIXES.

(** [any(base.startswith(prefix) for prefix in self.COMMON_PREFIXES)] *)
Definition has_known_prefix (base : string) : bool :=
  existsb (fun prefix => startswith base prefix) COMMON_PREFIXES.

(** The [base_candidates] list; each loop appends to the list built so far. *)
Definition base_candidates (url : string) : list string :=
  if negb (has_known_suffix url) then
    fold_left
      (fun acc suffix =>
         if endswith url suffix then acc ++ [url] else acc ++ [(url ++ suffix)%string])
      COMMON_SUFFIXES []
  else [url].

(** What one base contributes to [candidates]. *)
Definition prefix_variants (base : string) : list string :=
  if negb (has_known_prefix base) then
    fold_left (fun acc prefix => acc ++ [(prefix ++ base)%string]) COMMON_PREFIXES []
  else [base].

(** The [candidates] list. *)
Definition candidates (url : string) : list string :=
  if negb (Re.match_ipv4 url) then
    fold_left (fun acc base => acc ++ prefix_variants base)
      (base_candidates url) []
  else [url].

(** The [final_candidates] list, protocols in the inner loop. *)
Definition final_candidates (url : string) : list string :=
  fold_left
    (fun acc candidate =>
       fold_left (fun acc' protocol => acc' ++ [(protocol ++ candidate)%string])
         COMMON_PROTOCOLS acc)
    (candidates url) [].

(** The probing loop: the URL returned from inside the loop, if any, and the
    HEAD requests issued, in order.  A request that raises and a response
    with status 400 or more both move on to the next candidate. *)
Fixpoint probe_loop (head : string -> probe) (cands : list string)
  : option string * list string :=
  match cands with
  | [] => (None, [])
  | candidate :: rest =>
      match head candidate with
      | ProbeResponse status final_url =>
          if (status <? 400)%Z then (Some final_url, [candidate])
          else let (r, t) := probe_loop head rest in (r, candidate :: t)
      | ProbeRaises =>
          let (r, t) := probe_loop head rest in (r, candidate :: t)
      end
  end.

(** The text the candidates are built from: the input trimmed, lower-cased
    and without anything up to a [://]. *)
Definition host_part (input : string) : string := Re.sub_scheme (clean input).

(** The last line of [normalize_url]. *)
Definition fallback (url : string) : string :=
  (if negb (Re.match_ipv4 url) then "https://www." ++ url
   else "https://" ++ url)%string.

(** [normalize_url]: the URL returned and the HEAD requests issued. *)
Definition normalize_url (head : string -> probe) (input : string)
  : string * list string :=
  let url := clean input in
  if has_scheme url then (url, [])
  else
    let url := Re.sub_scheme url in
    match probe_loop head (final_candidates url) with
    | (Some final_url, probes) => (final_url, probes)
    | (None, probes) => (fallback url, probes)
    end.

(** ** Exceptions, results and the scraper's state *)

Inductive ImageHandling : Type := IGNORE | DOWNLOAD | LINK_ONLY.

(** The exceptions that reach [scrape].  [ScrapingError] carries a message,
    the URL that failed and an optional HTTP status; [TimeoutError] is the
    browser library's timeout signal; [OtherError] stands for any other
    subclass of [Exception] a collaborator raises, [BaseError] for an
    exception outside that hierarchy (a cancellation, a keyboard
    interrupt). *)
Inductive exn : Type :=
| TimeoutError
| ScrapingError (message url : string) (status_code : option Z)
| AttributeError (message : string)
| IndexError (message : string)
| NameError (message : string)
| OtherError (name : string)
| BaseError (name : string).

(** [isinstance(e, Exception)] *)
Definition is_Exception (e : exn) : bool :=
  match e with
  | BaseError _ => false
  | _ => true
  end.

Inductive result (A : Type) : Type :=
| Ok (a : A)
| Raise (e : exn).
Arguments Ok {A} a.
Arguments Raise {A} e.

(** The attribute [self.browser]: never assigned, [None], or a running
    browser. *)
Inductive attr : Type := Unset | PyNone | Live.

Inductive field : Type := Metadata | Content | Images | Links | Screenshots.

(** What the scraper does to the outside, in order. *)
Inductive event : Type :=
| EvHead (url : string)
| EvLaunch
| EvNewPage
| EvGoto (url : string)
| EvExtract (what : field)
| EvPageClose
| EvBrowserClose.

Record state : Type := mkState {
  browser : attr;
  open_pages : nat;
  log : list event
}.

(** Computations that read and change the state and may raise; what an
    [async def] denotes.  The state reached is kept when an exception is
    raised. *)
Definition M (A : Type) : Type := state -> result A * state.

Definition ret {A} (a : A) : M A := fun st => (Ok a, st).

Definition raise {A} (e : exn) : M A := fun st => (Raise e, st).

Definition bind {A B} (m : M A) (k : A -> M B) : M B :=
  fun st =>
    match m st with
    | (Ok a, st') => k a st'
    | (Raise e, st') => (Raise e, st')
    end.

Notation "x <- m ;; k" := (bind m (fun x => k))
  (at level 61, m at next level, right associativity).
Notation "m ;;; k" := (bind m (fun _ => k))
  (at level 61, right associativity).

(** [try: body  except Exception as e: handler(e)]; an exception that is
    not an [Exception] passes by the clause. *)
Definition try_except {A} (body : M A) (handler : exn -> M A) : M A :=
  fun st =>
    match body st with
    | (Ok a, st') => (Ok a, st')
    | (Raise e, st') =>
        if is_Exception e then handler e st' else (Raise e, st')
    end.

Definition lift {A} (r : result A) : M A := fun st => (r, st).

Definition emit (e : event) : M unit :=
  fun st => (Ok tt, mkState (browser st) (open_pages st) (log st ++ [e])).

Definition emit_all (es : list event) : M unit :=
  fun st => (Ok tt, mkState (browser st) (open_pages st) (log st ++ es)).

Definition set_browser (b : attr) : M unit :=
  fun st => (Ok tt, mkState b (open_pages st) (log st)).

Definition set_open_pages (n : nat) : M unit :=
  fun st => (Ok tt, mkState (browser st) n (log st)).

Definition get_state : M state := fun st => (Ok st, st).

(** ** Configuration and results *)

(** A caller's [ScrapingConfig]: any key may be missing. *)
Record ScrapingConfig : Type := mkScrapingConfig {
  sc_max_wait_time : option Z;
  sc_screenshot_enabled : option bool;
  sc_js_enabled : option bool;
  sc_timeout : option Z;
  sc_max_redirects : option Z;
  sc_viewport : option (Z * Z);
  sc_user_agents : option (list string);
  sc_image_handling : option ImageHandling
}.

(** [self.config]: the defaults overridden by the caller's keys.  The
    defaults have no [image_handling] key. *)
Record Config : Type := mkConfig {
  max_wait_time : Z;
  screenshot_enabled : bool;
  js_enabled : bool;
  timeout : Z;
  max_redirects : Z;
  viewport : Z * Z;
  user_agents : list string;
  image_handling : option ImageHandling
}.

Definition DEFAULT_CONFIG : Config :=
  mkConfig 30 true true 60000 5 (1920, 1080)%Z
    ["Mozilla/5.0 (Windows NT 10.0; Win64; x64) AppleWebKit/537.36 (KHTML, like Gecko) Chrome/121.0.0.0 Safari/537.36";
     "Mozilla/5.0 (Macintosh; Intel Mac OS X 10_15_7) AppleWebKit/537.36 (KHTML, like Gecko) Chrome/121.0.0.0 Safari/537.36";
     "Mozilla/5.0 (Windows NT 10.0; Win64; x64) AppleWebKit/537.36 (KHTML, like Gecko) Chrome/120.0.0.0 Safari/537.36 Edg/120.0.0.0"]
    None.

Definition or_default {A} (o : option A) (d : A) : A :=
  match o with Some a => a | None => d end.

(** [{**self.DEFAULT_CONFIG, **(config or {})}] *)
Definition merge_config (config : option ScrapingConfig) : Config :=
  match config with
  | None => DEFAULT_CONFIG
  | Some c =>
      mkConfig
        (or_default (sc_max_wait_time c) (max_wait_time DEFAULT_CONFIG))
        (or_default (sc_screenshot_enabled c) (screenshot_enabled DEFAULT_CONFIG))
        (or_default (sc_js_enabled c) (js_enabled DEFAULT_CONFIG))
        (or_default (sc_timeout c) (timeout DEFAULT_CONFIG))
        (or_default (sc_max_redirects c) (max_redirects DEFAULT_CONFIG))
        (or_default (sc_viewport c) (viewport DEFAULT_CONFIG))
        (or_default (sc_user_agents c) (user_agents DEFAULT_CONFIG))
        (sc_image_handling c)
  end.

(** The attributes of a [WebScraper] that never change after construction. *)
Record WebScraper : Type := mkWebScraper {
  config : Config;
  vault_path : option string
}.

Record PageMetadata : Type := mkPageMetadata {
  title : option string;
  author : option string;
  published : option string
}.

(** Modelled from the spec: the [WebContent] class is declared in the
    package's [web/__init__.py], which is not part of the sources; the spec
    gives it the fields [url], [metadata], [content], [images], [links] and
    [screenshots].  [None] is a field [scrape] did not assign. *)
Record WebContent : Type := mkWebContent {
  wc_url : string;
  wc_metadata : option PageMetadata;
  wc_content : option string;
  wc_images : option (list string);
  wc_links : option (list string);
  wc_screenshots : option (list string)
}.

(** ** The collaborators

    How the network and the browser objects behave during one call: the
    HEAD requests of [aiohttp], and the browser, its pages and their
    responses, reached through [self.browser] with [newPage], [goto],
    [status()], [url], [evaluate], [waitForFunction] and [close].  Each
    call is free to return or to raise.  [launch] is what
    [puppeteer.launch] would do; the module cannot reach it.  The URLs
    navigated to in one call are pairwise different, and so are the URLs
    probed, so a function of the URL describes every sequence of
    outcomes. *)
Record Env : Type := mkEnv {
  head : string -> probe;
  launch : result unit;
  browser_close : result unit;
  new_page : result unit;
  choice : nat;
  set_user_agent : string -> result unit;
  set_viewport : result unit;
  set_extra_headers : result unit;
  evaluate_on_new_document : result unit;
  goto : string -> result (option Z);
  urlparse_path : string -> result string;
  wait_for_function : result unit;
  evaluate_scroll : result unit;
  evaluate_captcha : result bool;
  evaluate_cloudflare : result bool;
  page_url : string;
  page_close : result unit
}.

(** Evaluating the name [puppeteer]: the module has no import and no
    assignment of it, so the lookup raises. *)
Definition puppeteer_name : M unit :=
  raise (NameError "name 'puppeteer' is not defined").

(** Looking up on [self] a method that [class WebScraper], which has no
    base class, does not define. *)
Definition missing_method {A} (name : string) : M A :=
  raise (AttributeError
           ("'WebScraper' object has no attribute '" ++ name ++ "'")).

(** ** The methods of [WebScraper] *)

Section Methods.

Variable env : Env.

(** [await self.normalize_url(url)] inside [scrape]: the HEAD requests are
    recorded in the log. *)
Definition normalize_url_call (url : string) : M string :=
  let (normalized, probes) := normalize_url (head env) url in
  emit_all (map EvHead probes) ;;; ret normalized.

(** [self.browser = await puppeteer.launch({...})]: the right-hand side is
    evaluated first, and it starts with the name [puppeteer]. *)
Definition _setup_puppeteer : M unit :=
  puppeteer_name ;;;
  lift (launch env) ;;;
  emit EvLaunch ;;;
  set_browser Live.

(** [__init__] is a plain [def]: the call [self._setup_puppeteer()] builds
    the coroutine and drops it, and nothing awaits it, so its body does
    not run.  The new object has [config] and [vault_path] and no
    [browser] attribute. *)
Definition __init__ (cfg : option ScrapingConfig) (vault : option string)
  : M WebScraper :=
  let self := mkWebScraper (merge_config cfg) vault in
  let _coroutine : M unit := _setup_puppeteer in
  set_browser Unset ;;;
  ret self.

(** [await self.browser.newPage()] *)
Definition browser_newPage : M unit :=
  st <- get_state ;;
  match browser st with
  | Unset =>
      raise (AttributeError "'WebScraper' object has no attribute 'browser'")
  | PyNone =>
      raise (AttributeError "'NoneType' object has no attribute 'newPage'")
  | Live =>
      lift (new_page env) ;;;
      emit EvNewPage ;;;
      set_open_pages (S (open_pages st))
  end.

(** [await page.close()] *)
Definition page_close_call : M unit :=
  lift (page_close env) ;;;
  emit EvPageClose ;;;
  st <- get_state ;;
  set_open_pages (pred (open_pages st)).

(** [await page.goto(url, {...})]: [None], or the status of the response. *)
Definition page_goto (url : string) : M (option Z) :=
  emit (EvGoto url) ;;;
  lift (goto env url).

(** [random.choice(seq)] *)
Definition random_choice (seq : list string) : M string :=
  match seq with
  | [] => raise (IndexError "Cannot choose from an empty sequence")
  | _ => ret (nth (choice env mod length seq) seq EmptyString)
  end.

Definition _inject_stealth_scripts : M unit :=
  lift (evaluate_on_new_document env).

Definition _setup_page (self : WebScraper) : M unit :=
  user_agent <- random_choice (user_agents (config self)) ;;
  lift (set_user_agent env user_agent) ;;;
  lift (set_viewport env) ;;;
  lift (set_extra_headers env) ;;;
  _inject_stealth_scripts.

(** The scroll script, then [asyncio.sleep(2)]. *)
Definition _simulate_scrolling : M unit :=
  lift (evaluate_scroll env).

(** [await self._handle_cookie_popups(page)]: the class has no such
    method. *)
Definition _handle_cookie_popups : M unit :=
  missing_method "_handle_cookie_popups".

Definition _handle_challenges : M unit :=
  captcha_detected <- lift (evaluate_captcha env) ;;
  if (captcha_detected : bool)
  then raise (ScrapingError "CAPTCHA detected" (page_url env) None)
  else
    cloudflare <- lift (evaluate_cloudflare env) ;;
    if (cloudflare : bool)
    then raise (ScrapingError "Cloudflare protection detected"
                  (page_url env) None)
    else ret tt.

Definition _handle_anti_bot : M unit :=
  lift (wait_for_function env) ;;;
  _simulate_scrolling ;;;
  _handle_cookie_popups ;;;
  _handle_challenges.

(** The extraction helpers [scrape] calls; the class defines none of
    them. *)
Definition _extract_metadata : M PageMetadata :=
  missing_method "_extract_metadata".
Definition _extract_content : M string :=
  missing_method "_extract_content".
Definition _handle_images : M (list string) :=
  missing_method "_handle_images".
Definition _extract_links : M (list string) :=
  missing_method "_extract_links".
Definition _take_screenshots : M (list string) :=
  missing_method "_take_screenshots".

(** The alternatives built when the first navigation has no response. *)
Definition alternatives_for (normalized_url path : string) : list string :=
  if String.eqb path EmptyString || String.eqb path "/"
  then [(normalized_url ++ "/index.html")%string;
        (normalized_url ++ "/home")%string;
        (normalized_url ++ "/main")%string]
  else [].

(** The loop over the alternatives: the first response ends it, a
    navigation that raises is skipped. *)
Fixpoint try_alternatives (alternatives : list string)
    (response : option Z) : M (option Z) :=
  match alternatives with
  | [] => ret response
  | alt_url :: rest =>
      fun st =>
        match page_goto alt_url st with
        | (Ok (Some r), st') => (Ok (Some r), st')
        | (Ok None, st') => try_alternatives rest None st'
        | (Raise _, st') => try_alternatives rest response st'
        end
  end.

(** [self.config.get('image_handling') != ImageHandling.IGNORE] *)
Definition images_wanted (cfg : Config) : bool :=
  match image_handling cfg with
  | Some IGNORE => false
  | _ => true
  end.

(** Navigation: the first [page.goto], the alternatives when it has no
    response, and the status of the response that was obtained. *)
Definition navigate (normalized_url : string) : M Z :=
  response <- page_goto normalized_url ;;
  match response with
  | Some status => ret status
  | None =>
      path <- lift (urlparse_path env normalized_url) ;;
      response <- try_alternatives
                    (alternatives_for normalized_url path) None ;;
      match response with
      | Some status => ret status
      | None => raise (ScrapingError "Failed to load page"
                         normalized_url None)
      end
  end.

(** Extraction into a new [WebContent], then [page.close()]. *)
Definition collect (self : WebScraper) (normalized_url : string)
  : M WebContent :=
  metadata <- _extract_metadata ;;
  content <- _extract_content ;;
  images <-
    (if images_wanted (config self)
     then (i <- _handle_images ;; ret (Some i))
     else ret None) ;;
  links <- _extract_links ;;
  screenshots <-
    (if screenshot_enabled (config self)
     then (s <- _take_screenshots ;; ret (Some s))
     else ret None) ;;
  page_close_call ;;;
  ret (mkWebContent normalized_url (Some metadata) (Some content)
         images (Some links) screenshots).

(** The body of the [try] block of [scrape]. *)
Definition scrape_body (self : WebScraper) (normalized_url : string)
  : M WebContent :=
  browser_newPage ;;;
  _setup_page self ;;;
  status <- navigate normalized_url ;;
  if (status >=? 400)%Z
  then raise (ScrapingError ("HTTP " ++ str_of_int status)
                normalized_url (Some status))
  else
    _handle_anti_bot ;;;
    collect self normalized_url.

(** The [except Exception as e] clause of [scrape]: the test
    [isinstance(e, puppeteer.errors.TimeoutError)] evaluates the name
    [puppeteer] before anything else. *)
Definition scrape_handler (normalized_url : string) (e : exn)
  : M WebContent :=
  puppeteer_name ;;;
  match e with
  | TimeoutError =>
      raise (ScrapingError "Page load timeout" normalized_url None)
  | _ => raise e
  end.

Definition scrape (self : WebScraper) (url : string) : M WebContent :=
  normalized_url <- normalize_url_call url ;;
  try_except (scrape_body self normalized_url)
    (scrape_handler normalized_url).

(** [close] *)
Definition close : M unit :=
  st <- get_state ;;
  match browser st with
  | Unset =>
      raise (AttributeError "'WebScraper' object has no attribute 'browser'")
  | PyNone => ret tt
  | Live =>
      lift (browser_close env) ;;;
      emit EvBrowserClose ;;;
      set_open_pages 0 ;;;
      set_browser PyNone
  end.

End Methods.

(** The navigations and the extractions recorded in a log. *)
Definition gotos (l : list event) : list string :=
  flat_map (fun e => match e with EvGoto u => [u] | _ => [] end) l.

Definition extractions (l : list event) : list field :=
  flat_map (fun e => match e with EvExtract f => [f] | _ => [] end) l.


(** The candidate list as the specification words it: for each suffix, the
    protocols, and inside them the prefixes, which puts
    [https://www.example.com], [https://example.com],
    [http://www.example.com], [http://example.com] first for [example]. *)
Definition spec_cartesian_candidates (url : string) : list string :=
  flat_map
    (fun suffix =>
       flat_map
         (fun protocol =>
            map (fun prefix => (protocol ++ prefix ++ url ++ suffix)%string)
              COMMON_PREFIXES)
         COMMON_PROTOCOLS)
    COMMON_SUFFIXES.

(** A candidate that names a [www.] host. *)
Definition names_www (candidate : string) : bool :=
  startswith candidate "https://www." || startswith candidate "http://www.".

(** One candidate under each protocol, [https://] first. *)
Definition with_protocols (candidate : string) : list string :=
  map (fun protocol => (protocol ++ candidate)%string) COMMON_PROTOCOLS.

(** A probe that does not succeed: it raises, or the status is 400 or more. *)
Definition probe_fails (p : probe) : bool :=
  match p with
  | ProbeRaises => true
  | ProbeResponse status _ => negb (status <? 400)%Z
  end.

(** The page of a call is opened and set up without an exception. *)
Definition page_opens (env : Env) (self : WebScraper) : Prop :=
  new_page env = Ok tt /\
  user_agents (config self) <> [] /\
  (forall user_agent, set_user_agent env user_agent = Ok tt) /\
  set_viewport env = Ok tt /\
  set_extra_headers env = Ok tt /\
  evaluate_on_new_document env = Ok tt.

(** The page is ready: the readiness wait and the scroll both return. *)
Definition page_ready (env : Env) : Prop :=
  wait_for_function env = Ok tt /\
  evaluate_scroll env = Ok tt.

(** A navigation with no response: [None], or an exception. *)
Definition no_response (r : result (option Z)) : Prop :=
  match r with
  | Ok (Some _) => False
  | _ => True
  end.

(** The state after the HEAD requests of [normalize_url]. *)
Definition after_probes (env : Env) (input : string) (st : state) : state :=
  mkState (browser st) (open_pages st)
    (log st ++ map EvHead (snd (normalize_url (head env) input))).

(** The state once the page of the call is open. *)
Definition page_opened (st : state) : state :=
  mkState (browser st) (S (open_pages st)) (log st ++ [EvNewPage]).

(** The state after a navigation to [url]. *)
Definition navigated (url : string) (st : state) : state :=
  mkState (browser st) (open_pages st) (log st ++ [EvGoto url]).

(** A computation that leaves the number of open pages as it found it,
    whether it returns or raises. *)
Definition keeps_pages {A} (m : M A) : Prop :=
  forall st, open_pages (snd (m st)) = open_pages st.


(** ** Sample collaborators *)

Module Sample.

(** No host answers. *)
Definition dead_head (_ : string) : probe := ProbeRaises.

(** Only [https://example.com] answers, redirecting to the [www] host. *)
Definition example_head (candidate : string) : probe :=
  if String.eqb candidate "https://example.com"
  then ProbeResponse 200 "https://www.example.com/"
  else ProbeRaises.

(** A browser in which every step succeeds, apart from what the arguments
    say about navigation, the parsed path and the two challenge probes. *)
Definition env_with (nav : string -> result (option Z)) (path : string)
    (captcha cloudflare : bool) : Env :=
  mkEnv dead_head (Ok tt) (Ok tt) (Ok tt) 0
    (fun _ => Ok tt) (Ok tt) (Ok tt) (Ok tt)
    nav (fun _ => Ok path)
    (Ok tt) (Ok tt)
    (Ok captcha) (Ok cloudflare) "https://example.com/landing"
    (Ok tt).

Definition nav_status (status : Z) (_ : string) : result (option Z) :=
  Ok (Some status).

Definition nav_none (_ : string) : result (option Z) := Ok None.

Definition nav_timeout (_ : string) : result (option Z) :=
  Raise TimeoutError.

(** The first navigation has no response, [/index.html] times out and
    [/home] answers 200. *)
Definition nav_second_alternative (url : string) : result (option Z) :=
  if String.eqb url "https://example.com/index.html" then Raise TimeoutError
  else if String.eqb url "https://example.com/home" then Ok (Some 200%Z)
  else Ok None.

Definition scraper : WebScraper := mkWebScraper DEFAULT_CONFIG None.

(** A scraper whose browser has been launched, with [n] pages open. *)
Definition running (n : nat) : state := mkState Live n [].

End Sample.

(** ** Further sample collaborators *)

Module SampleProbe.

(** [https://example.org] answers 503, [http://example.org] answers 200
    after a redirect. *)
Definition flaky_head (candidate : string) : probe :=
  if String.eqb candidate "https://example.org"
  then ProbeResponse 503 "https://example.org/"
  else if String.eqb candidate "http://example.org"
       then ProbeResponse 200 "http://www.example.org/home"
       else ProbeRaises.

End SampleProbe.


(** A text with no line break in it. *)
Fixpoint no_newline (s : string) : bool :=
  match s with
  | EmptyString => true
  | String c s' => negb (Ascii.eqb c newline) && no_newline s'
  end.

Module SampleRun.


(** A scraper configured with an empty list of user agents. *)
Definition no_agents : WebScraper :=
  mkWebScraper
    (merge_config
       (Some (mkScrapingConfig None None None None None None (Some [])
                None)))
    None.

End SampleRun.

(** A computation that leaves [self.browser] as it is and adds to the log
    only events that satisfy [P], whether it returns or raises. *)
Definition confined {A} (P : event -> Prop) (m : M A) : Prop :=
  forall st,
    browser (snd (m st)) = browser st /\
    exists added, log (snd (m st)) = log st ++ added /\ Forall P added.

(** What one call of [scrape] on a scraper [self] may do, [url] being the
    normalized URL: HEAD requests to http(s) URLs, opening and closing a
    page, navigating to the URL or one of its three alternatives, and the
    extractions the configuration allows.  Launching or closing the
    browser is not among them. *)
Definition scrape_may (self : WebScraper) (url : string) (e : event)
  : Prop :=
  match e with
  | EvHead candidate => has_scheme candidate = true
  | EvNewPage | EvPageClose => True
  | EvGoto target =>
      In target [url; (url ++ "/index.html")%string;
                 (url ++ "/home")%string; (url ++ "/main")%string]
  | EvExtract Images => images_wanted (config self) = true
  | EvExtract Screenshots => screenshot_enabled (config self) = true
  | EvExtract _ => True
  | EvLaunch | EvBrowserClose => False
  end.

(** An event that is not a navigation. *)
Definition not_goto (e : event) : Prop := gotos [e] = [].

(** A computation whose navigations are the first few of [targets], in
    order. *)
Definition navigates_along {A} (targets : list string) (m : M A) : Prop :=
  forall st,
    exists n, gotos (log (snd (m st))) = gotos (log st) ++ firstn n targets.



Module SampleLife.

(** A browser whose [close()] fails. *)
Definition env_close_fails : Env :=
  mkEnv Sample.dead_head (Ok tt) (Raise (OtherError "NetworkError")) (Ok tt)
    0 (fun _ => Ok tt) (Ok tt) (Ok tt) (Ok tt)
    (Sample.nav_status 200) (fun _ => Ok "")
    (Ok tt) (Ok tt)
    (Ok false) (Ok false) "https://example.com/"
    (Ok tt).

(** A CAPTCHA is on the page and the interstitial probe would raise. *)
Definition env_captcha : Env :=
  mkEnv Sample.dead_head (Ok tt) (Ok tt) (Ok tt) 0
    (fun _ => Ok tt) (Ok tt) (Ok tt) (Ok tt)
    (Sample.nav_status 200) (fun _ => Ok "")
    (Ok tt) (Ok tt)
    (Ok true) (Raise (OtherError "ElementHandleError"))
    "https://example.com/verify"
    (Ok tt).

(** Only the interstitial is on the page. *)
Definition env_interstitial : Env :=
  Sample.env_with (Sample.nav_status 200) "" false true.

End SampleLife.

(** A computation that never returns a value: every run of it raises. *)
Definition never_returns {A} (m : M A) : Prop :=
  forall st, exists e, fst (m st) = Raise e.

(** What [scrape] raises when the [try] block has raised: the [NameError]
    of the [except] clause, or what passed by the clause. *)
Definition scrape_failure (e : exn) : Prop :=
  e = NameError "name 'puppeteer' is not defined" \/
  exists name, e = BaseError name.


(** * Properties *)

(** ** The primitives on sample inputs *)

Example strip_lower_sample : clean "  Example.COM/Path  " = "example.com/path".
Proof. reflexivity. Qed.

Example sub_scheme_sample :
  Re.sub_scheme "ftp://example.com" = "example.com" /\
  Re.sub_scheme "a://b://c" = "c" /\
  Re.sub_scheme "example.com" = "example.com".
Proof. repeat split. Qed.

Example match_ipv4_sample :
  Re.match_ipv4 "10.0.0.1" = true /\
  Re.match_ipv4 "1234.0.0.1" = false /\
  Re.match_ipv4 "10.0.0" = false /\
  Re.match_ipv4 "10.0.0.1.5" = false /\
  Re.match_ipv4 "example.com" = false.
Proof. repeat split. Qed.

Example endswith_sample :
  endswith "example.com" ".com" = true /\
  endswith "example.co" ".com" = false /\
  endswith "com" ".com" = false.
Proof. repeat split. Qed.

Example str_of_int_sample : str_of_int 404 = "404" /\ str_of_int 0 = "0".
Proof. repeat split. Qed.

(** An IPv4 input gets the two protocols and nothing else. *)
Example final_candidates_ip :
  final_candidates "10.0.0.1" = ["https://10.0.0.1"; "http://10.0.0.1"].
Proof. reflexivity. Qed.

(** An input with a known suffix keeps it as the only base. *)
Example final_candidates_suffixed :
  final_candidates "example.org" =
    ["https://example.org"; "http://example.org"].
Proof. reflexivity. Qed.

(** The first reachable candidate wins, with the URL after redirects. *)
Example normalize_url_first_success :
  normalize_url Sample.example_head " Example " =
    ("https://www.example.com/", ["https://example.com"]).
Proof. reflexivity. Qed.

(** ** Strings *)

Section StringFacts.

Lemma startswith_split (p s : string) :
  startswith s p = true -> exists t, s = (p ++ t)%string.
Proof.
  unfold startswith. revert s.
  induction p as [|a p IH]; intros s H.
  - exists s. reflexivity.
  - destruct s as [|b s]; simpl in H; [discriminate|].
    destruct (ascii_dec a b) as [->|]; [|discriminate].
    destruct (IH s H) as [t ->]. exists t. reflexivity.
Qed.

Lemma startswith_app (p t : string) : startswith (p ++ t) p = true.
Proof.
  unfold startswith. induction p as [|a p IH]; simpl.
  - destruct t; reflexivity.
  - destruct (ascii_dec a a); [assumption|congruence].
Qed.

Lemma rstrip_cons (c : ascii) (s : string) :
  is_space c = false -> rstrip (String c s) = String c (rstrip s).
Proof.
  intros H. simpl. rewrite H. destruct (rstrip s); reflexivity.
Qed.

Lemma lower_app (s t : string) :
  lower (s ++ t) = (lower s ++ lower t)%string.
Proof.
  induction s as [|c s IH]; simpl; [reflexivity|]. now rewrite IH.
Qed.

(** Trimming and lower-casing keep a leading [http://]. *)
Lemma clean_http (t : string) :
  clean ("http://" ++ t) = ("http://" ++ lower (rstrip t))%string.
Proof.
  unfold clean, strip.
  change (lstrip ("http://" ++ t)) with ("http://" ++ t)%string.
  cbn [append].
  repeat (rewrite rstrip_cons by reflexivity).
  reflexivity.
Qed.

Lemma clean_https (t : string) :
  clean ("https://" ++ t) = ("https://" ++ lower (rstrip t))%string.
Proof.
  unfold clean, strip.
  change (lstrip ("https://" ++ t)) with ("https://" ++ t)%string.
  cbn [append].
  repeat (rewrite rstrip_cons by reflexivity).
  reflexivity.
Qed.

Lemma has_scheme_clean (input : string) :
  has_scheme input = true -> has_scheme (clean input) = true.
Proof.
  unfold has_scheme. intros H.
  apply orb_true_iff in H. destruct H as [H|H];
    apply startswith_split in H; destruct H as [t ->].
  - rewrite clean_http. rewrite startswith_app. reflexivity.
  - rewrite clean_https. rewrite startswith_app. apply orb_true_r.
Qed.

Lemma has_scheme_https (t : string) : has_scheme ("https://" ++ t) = true.
Proof.
  unfold has_scheme. rewrite (startswith_app "https://" t).
  apply orb_true_r.
Qed.

End StringFacts.

(** ** The candidate lists *)

Section CandidateLists.

(** A loop that appends one element per iteration builds a [map]. *)
Lemma fold_append_one {A B} (f : A -> B) (l : list A) (acc : list B) :
  fold_left (fun acc x => acc ++ [f x]) l acc = acc ++ map f l.
Proof.
  revert acc. induction l as [|x l IH]; intros acc; simpl.
  - now rewrite app_nil_r.
  - rewrite IH, <- app_assoc. reflexivity.
Qed.

(** A loop that appends a block per iteration builds a [flat_map]. *)
Lemma fold_append_block {A B} (g : A -> list B) (l : list A)
    (acc : list B) :
  fold_left (fun acc x => acc ++ g x) l acc = acc ++ flat_map g l.
Proof.
  revert acc. induction l as [|x l IH]; intros acc; simpl.
  - now rewrite app_nil_r.
  - rewrite IH, <- app_assoc. reflexivity.
Qed.

Lemma fold_left_ext_in {A B} (f g : B -> A -> B) (l : list A) (acc : B) :
  (forall b x, In x l -> f b x = g b x) ->
  fold_left f l acc = fold_left g l acc.
Proof.
  revert acc. induction l as [|x l IH]; intros acc H; simpl.
  - reflexivity.
  - rewrite (H acc x (or_introl eq_refl)). apply IH.
    intros b y Hy. apply H. now right.
Qed.

Lemma final_candidates_flat_map (url : string) :
  final_candidates url = flat_map with_protocols (candidates url).
Proof.
  unfold final_candidates.
  rewrite (fold_left_ext_in _ (fun acc c => acc ++ with_protocols c)).
  - apply (fold_append_block with_protocols).
  - intros b c _. apply fold_append_one.
Qed.

Lemma length_flat_map_protocols (l : list string) :
  length (flat_map with_protocols l) = length l * length COMMON_PROTOCOLS.
Proof.
  induction l as [|c l IH]; simpl; [reflexivity|].
  now rewrite IH.
Qed.

Lemma base_candidates_no_suffix (url : string) :
  has_known_suffix url = false ->
  base_candidates url =
    map (fun suffix => (url ++ suffix)%string) COMMON_SUFFIXES.
Proof.
  intros H. unfold base_candidates. rewrite H. cbn [negb].
  rewrite (fold_left_ext_in _
             (fun acc suffix => acc ++ [(url ++ suffix)%string])).
  - apply (fold_append_one (fun suffix => (url ++ suffix)%string)).
  - intros b suffix Hin.
    unfold has_known_suffix in H.
    rewrite <- not_true_iff_false, existsb_exists in H.
    destruct (endswith url suffix) eqn:E; [|reflexivity].
    exfalso. apply H. now exists suffix.
Qed.

Lemma candidates_not_ip (url : string) :
  Re.match_ipv4 url = false ->
  candidates url = flat_map prefix_variants (base_candidates url).
Proof.
  intros H. unfold candidates. rewrite H. cbn [negb].
  apply (fold_append_block prefix_variants).
Qed.

(** Every string starts with the empty prefix, so the test of the prefix
    loop always finds a known prefix and each base is kept as it is. *)
Lemma has_known_prefix_always (base : string) :
  has_known_prefix base = true.
Proof.
  unfold has_known_prefix, COMMON_PREFIXES. cbn [existsb].
  replace (startswith base "") with true
    by (unfold startswith; destruct base; reflexivity).
  now rewrite orb_true_r.
Qed.

Lemma prefix_variants_keeps (base : string) : prefix_variants base = [base].
Proof.
  unfold prefix_variants. now rewrite has_known_prefix_always.
Qed.

End CandidateLists.

(** ** The probing loop *)

Section Probing.

Variable head : string -> probe.


Lemma probe_loop_success (cands : list string) (u : string)
    (probes : list string) :
  probe_loop head cands = (Some u, probes) ->
  exists c status,
    In c cands /\ head c = ProbeResponse status u /\ (status < 400)%Z.
Proof.
  revert probes. induction cands as [|c rest IH]; intros probes H;
    simpl in H; [discriminate|].
  destruct (head c) as [|status final] eqn:E.
  - destruct (probe_loop head rest) as [r t] eqn:R.
    injection H as -> _.
    destruct (IH t eq_refl) as (c' & st & Hin & Hh & Hlt).
    exists c', st. auto using in_cons.
  - destruct (status <? 400)%Z eqn:L.
    + injection H as -> _. exists c, status.
      repeat split; [now left | assumption | now apply Z.ltb_lt].
    + destruct (probe_loop head rest) as [r t] eqn:R.
      injection H as -> _.
      destruct (IH t eq_refl) as (c' & st & Hin & Hh & Hlt).
      exists c', st. auto using in_cons.
Qed.

(** The requests are issued in list order, with no candidate skipped. *)
Lemma probe_loop_in_order (cands : list string) :
  exists n, snd (probe_loop head cands) = firstn n cands.
Proof.
  induction cands as [|c rest [n IH]]; simpl.
  - exists 0. reflexivity.
  - destruct (probe_loop head rest) as [r t]. simpl in IH.
    destruct (head c) as [|status final].
    + exists (S n). simpl. now rewrite IH.
    + destruct (status <? 400)%Z.
      * exists 1. reflexivity.
      * exists (S n). simpl. now rewrite IH.
Qed.

End Probing.

(** ** [normalize_url] *)

Section NormalizeUrl.

Lemma flat_map_flat_map {A B C} (f : A -> list B) (g : B -> list C)
    (l : list A) :
  flat_map g (flat_map f l) = flat_map (fun x => flat_map g (f x)) l.
Proof.
  induction l as [|x l IH]; simpl; [reflexivity|].
  now rewrite flat_map_app, IH.
Qed.

Lemma flat_map_map {A B C} (f : A -> B) (g : B -> list C) (l : list A) :
  flat_map g (map f l) = flat_map (fun x => g (f x)) l.
Proof.
  induction l as [|x l IH]; simpl; [reflexivity|]. now rewrite IH.
Qed.

Lemma normalize_url_probed (head : string -> probe) (input : string) :
  has_scheme (clean input) = false ->
  snd (normalize_url head input) =
    snd (probe_loop head (final_candidates (host_part input))).
Proof.
  intros H. unfold normalize_url, host_part. rewrite H.
  destruct (probe_loop head _) as [[u|] probes]; reflexivity.
Qed.

(** The number of HEAD requests of one call is bounded by the length of
    the candidate list. *)
Lemma normalize_url_probe_bound (head : string -> probe) (input : string) :
  length (snd (normalize_url head input))
  <= length (final_candidates (host_part input)).
Proof.
  destruct (has_scheme (clean input)) eqn:H.
  - unfold normalize_url. rewrite H. simpl. lia.
  - rewrite normalize_url_probed by assumption.
    destruct (probe_loop_in_order head (final_candidates (host_part input)))
      as [n ->].
    rewrite length_firstn. lia.
Qed.

(** An input that is already trimmed, lower-case and free of [://] is
    itself the text the candidates and the fallback are built from. *)
Lemma host_part_fixed (input : string) :
  clean input = input ->
  Re.after_last_scheme input = None ->
  host_part input = input.
Proof.
  intros Hc Hs. unfold host_part, Re.sub_scheme. now rewrite Hc, Hs.
Qed.

End NormalizeUrl.

(** At [example] the list the code builds is the list of the
    specification with the [www.] entries left out, in the same order. *)
Lemma final_candidates_example_is_spec_without_www :
  final_candidates "example" =
    filter (fun c => negb (names_www c)) (spec_cartesian_candidates "example")
  /\
  firstn 4 (spec_cartesian_candidates "example") =
    ["https://www.example.com"; "https://example.com";
     "http://www.example.com"; "http://example.com"] /\
  firstn 4 (snd (normalize_url Sample.dead_head "example")) =
    ["https://example.com"; "http://example.com";
     "https://example.ai"; "http://example.ai"].
Proof.
  repeat split.
Qed.

(** C2 asks for the expansion prefixes x suffixes x protocols.  The prefix
    loop of the code never runs, the empty prefix being a prefix of every
    base: for every non-IP text without a known suffix the candidates are
    the text with each suffix under [https://] and [http://], and nothing
    else; 24 of them and not 12 x 2 x 2, none with [www.] put in front. *)
Theorem final_candidates_without_www (url : string) :
  Re.match_ipv4 url = false ->
  has_known_suffix url = false ->
  final_candidates url =
    flat_map
      (fun suffix => [("https://" ++ url ++ suffix)%string;
                      ("http://" ++ url ++ suffix)%string])
      COMMON_SUFFIXES /\
  length (final_candidates url) = 24 /\
  length (final_candidates url) <>
    length COMMON_SUFFIXES * length COMMON_PREFIXES * length COMMON_PROTOCOLS.
Proof.
  intros Hip Hsuf.
  assert (E : final_candidates url =
              flat_map
                (fun suffix => [("https://" ++ url ++ suffix)%string;
                                ("http://" ++ url ++ suffix)%string])
                COMMON_SUFFIXES).
  { rewrite final_candidates_flat_map, (candidates_not_ip _ Hip).
    rewrite (base_candidates_no_suffix _ Hsuf).
    rewrite flat_map_flat_map, flat_map_map.
    apply flat_map_ext. intros suffix.
    now rewrite prefix_variants_keeps. }
  rewrite E. repeat split. simpl. lia.
Qed.

Lemma final_candidates_without_www_witness :
  final_candidates "example" =
    flat_map
      (fun suffix => [("https://" ++ "example" ++ suffix)%string;
                      ("http://" ++ "example" ++ suffix)%string])
      COMMON_SUFFIXES /\
  length (final_candidates "example") = 24 /\
  length (final_candidates "example") <>
    length COMMON_SUFFIXES * length COMMON_PREFIXES * length COMMON_PROTOCOLS.
Proof.
  apply (final_candidates_without_www "example"); reflexivity.
Defined.

(** C4, as stated, fails: [http://Example.com] starts with [http://] and
    comes back lower-cased, not unchanged. *)
Lemma normalize_url_scheme_input_changed :
  startswith "http://Example.com" "http://" = true /\
  fst (normalize_url Sample.dead_head "http://Example.com")
    = "http://example.com" /\
  fst (normalize_url Sample.dead_head "http://Example.com")
    <> "http://Example.com".
Proof.
  repeat split; try reflexivity. vm_compute. discriminate.
Qed.

(** C4, amended: for every input string that already starts with [http://]
    or [https://], [normalize_url] returns that input trimmed and
    lower-cased, and issues no HEAD request. *)
Theorem normalize_url_scheme_input (head : string -> probe)
    (input : string) :
  has_scheme input = true ->
  normalize_url head input = (lower (strip input), []).
Proof.
  intros H. unfold normalize_url.
  rewrite (has_scheme_clean _ H). reflexivity.
Qed.

Lemma normalize_url_scheme_input_witness :
  has_scheme "https://Example.com/a " = true /\
  normalize_url Sample.example_head "https://Example.com/a "
    = ("https://example.com/a", []).
Proof.
  split; [reflexivity|].
  apply (normalize_url_scheme_input Sample.example_head
           "https://Example.com/a ").
  reflexivity.
Defined.




(** C10: the string [normalize_url] returns begins with [http://] or
    [https://], given that the URL of a successful HEAD response does, as
    the HTTP client only follows redirects to those two schemes. *)
Theorem normalize_url_has_scheme (head : string -> probe) (input : string) :
  (forall c status u,
      head c = ProbeResponse status u -> (status < 400)%Z ->
      has_scheme u = true) ->
  has_scheme (fst (normalize_url head input)) = true.
Proof.
  intros Hhead. unfold normalize_url.
  destruct (has_scheme (clean input)) eqn:Hs; [exact Hs|].
  destruct (probe_loop head _) as [[u|] probes] eqn:P; cbn [fst].
  - destruct (probe_loop_success head _ _ _ P) as (c & st & _ & Hc & Hlt).
    exact (Hhead c st u Hc Hlt).
  - unfold fallback.
    destruct (Re.match_ipv4 _); cbn [negb].
    + apply has_scheme_https.
    + apply (has_scheme_https ("www." ++ _)).
Qed.

Lemma normalize_url_has_scheme_witness :
  fst (normalize_url Sample.example_head "example")
    = "https://www.example.com/" /\
  has_scheme (fst (normalize_url Sample.example_head "example")) = true.
Proof.
  split; [reflexivity|].
  apply (normalize_url_has_scheme Sample.example_head "example").
  intros c status u H _. unfold Sample.example_head in H.
  destruct (String.eqb c "https://example.com"); [|discriminate].
  injection H as _ <-. reflexivity.
Defined.

(** ** [scrape] *)

Section Scrape.

Variable env : Env.
Variable self : WebScraper.

Lemma normalize_url_call_run (input : string) (st : state) :
  normalize_url_call env input st =
    (Ok (fst (normalize_url (head env) input)), after_probes env input st).
Proof.
  unfold normalize_url_call, after_probes, bind, emit_all, ret.
  destruct (normalize_url (head env) input) as [u probes]. reflexivity.
Qed.

Lemma scrape_run (input : string) (st : state) :
  scrape env self input st =
    let url := fst (normalize_url (head env) input) in
    try_except (scrape_body env self url) (scrape_handler url)
      (after_probes env input st).
Proof.
  unfold scrape, bind. rewrite normalize_url_call_run. reflexivity.
Qed.

Lemma open_page_run {A} (k : M A) (st : state) :
  browser st = Live -> page_opens env self ->
  (browser_newPage env ;;; _setup_page env self ;;; k) st =
    k (page_opened st).
Proof.
  intros Hb (Hn & Hua & Hset & Hv & Hh & Hd).
  unfold bind at 1. unfold browser_newPage, bind at 1, get_state.
  rewrite Hb. unfold bind, lift, emit, set_open_pages. rewrite Hn.
  cbn [browser open_pages log].
  unfold _setup_page, random_choice, bind.
  destruct (user_agents (config self)) as [|ua uas] eqn:E; [congruence|].
  unfold ret, lift, _inject_stealth_scripts, lift.
  rewrite Hset, Hv, Hh, Hd. unfold page_opened. rewrite Hb. reflexivity.
Qed.

Lemma new_page_run {A} (k : M A) (st : state) :
  browser st = Live -> new_page env = Ok tt ->
  (browser_newPage env ;;; k) st = k (page_opened st).
Proof.
  intros Hb Hn.
  unfold bind at 1. unfold browser_newPage, bind at 1, get_state.
  rewrite Hb. unfold bind, lift, emit, set_open_pages. rewrite Hn.
  unfold page_opened. rewrite Hb. reflexivity.
Qed.

Lemma scrape_body_run (url : string) (st : state) :
  browser st = Live -> page_opens env self ->
  scrape_body env self url st =
    (status <- navigate env url ;;
     if (status >=? 400)%Z
     then raise (ScrapingError ("HTTP " ++ str_of_int status) url
                   (Some status))
     else _handle_anti_bot env ;;; collect env self url) (page_opened st).
Proof.
  intros Hb Ho. unfold scrape_body. now rewrite open_page_run.
Qed.

Lemma page_goto_run (url : string) (st : state) :
  page_goto env url st = (goto env url, navigated url st).
Proof. reflexivity. Qed.

(** When no alternative has a response, the loop navigates to each of them
    in order and ends without a response. *)
Lemma try_alternatives_none (alts : list string) (st : state) :
  (forall alt, In alt alts -> no_response (goto env alt)) ->
  try_alternatives env alts None st =
    (Ok None,
     mkState (browser st) (open_pages st) (log st ++ map EvGoto alts)).
Proof.
  revert st. induction alts as [|alt rest IH]; intros st H.
  - simpl. unfold ret. rewrite app_nil_r. now destruct st.
  - cbn [try_alternatives]. rewrite page_goto_run.
    assert (Ha := H alt (or_introl eq_refl)).
    assert (Hrest : forall a, In a rest -> no_response (goto env a))
      by (intros a Hin; apply H; now right).
    destruct (goto env alt) as [[status|]|e]; [contradiction| |];
      rewrite (IH _ Hrest); unfold navigated; cbn [browser open_pages log];
      rewrite <- app_assoc; reflexivity.
Qed.

Lemma gotos_app (l l' : list event) : gotos (l ++ l') = gotos l ++ gotos l'.
Proof. apply flat_map_app. Qed.

Lemma extractions_app (l l' : list event) :
  extractions (l ++ l') = extractions l ++ extractions l'.
Proof. apply flat_map_app. Qed.

Lemma gotos_heads (probes : list string) : gotos (map EvHead probes) = [].
Proof. induction probes; simpl; auto. Qed.

Lemma extractions_heads (probes : list string) :
  extractions (map EvHead probes) = [].
Proof. induction probes; simpl; auto. Qed.

Lemma gotos_map_goto (urls : list string) : gotos (map EvGoto urls) = urls.
Proof. induction urls as [|u l IH]; simpl; [reflexivity|]. now rewrite IH. Qed.

(** The first navigation has a response: no alternative is computed. *)
Lemma navigate_response (url : string) (status : Z) (st : state) :
  goto env url = Ok (Some status) ->
  navigate env url st = (Ok status, navigated url st).
Proof.
  intros H. unfold navigate, bind. rewrite page_goto_run, H. reflexivity.
Qed.

Lemma navigate_raises (url : string) (e : exn) (st : state) :
  goto env url = Raise e ->
  navigate env url st = (Raise e, navigated url st).
Proof.
  intros H. unfold navigate, bind. rewrite page_goto_run, H. reflexivity.
Qed.

Lemma navigate_no_response (url path : string) (st : state) :
  goto env url = Ok None ->
  urlparse_path env url = Ok path ->
  (forall alt, In alt (alternatives_for url path) ->
               no_response (goto env alt)) ->
  navigate env url st =
    (Raise (ScrapingError "Failed to load page" url None),
     mkState (browser st) (open_pages st)
       (log st ++ map EvGoto (url :: alternatives_for url path))).
Proof.
  intros Hg Hp Halts. unfold navigate, bind at 1.
  rewrite page_goto_run, Hg. unfold bind at 1, lift. rewrite Hp.
  unfold bind. rewrite (try_alternatives_none _ _ Halts).
  unfold raise, navigated. cbn [browser open_pages log map].
  rewrite <- app_assoc. reflexivity.
Qed.

(** The loop stops at the first alternative with a response: the ones
    before it are navigated to in order, the ones after it are not. *)
Lemma try_alternatives_first_response (before after : list string)
    (alt : string) (status : Z) (st : state) :
  (forall a, In a before -> no_response (goto env a)) ->
  goto env alt = Ok (Some status) ->
  try_alternatives env (before ++ alt :: after) None st =
    (Ok (Some status),
     mkState (browser st) (open_pages st)
       (log st ++ map EvGoto (before ++ [alt]))).
Proof.
  revert st. induction before as [|b rest IH]; intros st H Halt.
  - cbn [app try_alternatives]. rewrite page_goto_run, Halt. reflexivity.
  - cbn [app try_alternatives]. rewrite page_goto_run.
    assert (Hb := H b (or_introl eq_refl)).
    assert (Hrest : forall a, In a rest -> no_response (goto env a))
      by (intros a Hin; apply H; now right).
    destruct (goto env b) as [[s|]|e]; [contradiction| |];
      rewrite (IH _ Hrest Halt); unfold navigated;
      cbn [browser open_pages log map app];
      rewrite <- app_assoc; reflexivity.
Qed.

(** The [except] clause raises [NameError], whatever it caught. *)
Lemma scrape_handler_run (url : string) (e : exn) (st : state) :
  scrape_handler url e st =
    (Raise (NameError "name 'puppeteer' is not defined"), st).
Proof. reflexivity. Qed.

(** An [Exception] raised in the [try] block reaches the caller as the
    [NameError] of the clause. *)
Lemma scrape_raises_name_error (input : string) (e : exn) (st st' : state) :
  scrape_body env self (fst (normalize_url (head env) input))
    (after_probes env input st) = (Raise e, st') ->
  is_Exception e = true ->
  scrape env self input st =
    (Raise (NameError "name 'puppeteer' is not defined"), st').
Proof.
  intros Hbody He. rewrite scrape_run. cbv zeta. unfold try_except.
  rewrite Hbody, He. apply scrape_handler_run.
Qed.

(** [_handle_anti_bot] on a ready page stops at the cookie step, before
    the challenge check. *)
Lemma handle_anti_bot_stops (st : state) :
  page_ready env ->
  _handle_anti_bot env st =
    (Raise (AttributeError
              "'WebScraper' object has no attribute '_handle_cookie_popups'"),
     st).
Proof.
  intros (Hw & Hs).
  unfold _handle_anti_bot, _simulate_scrolling, bind, lift.
  rewrite Hw, Hs. reflexivity.
Qed.

(** The [try] block when the first navigation raises. *)
Lemma scrape_body_navigation_raises (url : string) (e : exn) (st : state) :
  browser st = Live ->
  page_opens env self ->
  goto env url = Raise e ->
  scrape_body env self url st = (Raise e, navigated url (page_opened st)).
Proof.
  intros Hb Ho Hg. rewrite scrape_body_run by assumption.
  unfold bind. now rewrite (navigate_raises _ _ _ Hg).
Qed.

(** The [try] block when no navigation has a response. *)
Lemma scrape_body_no_response (url path : string) (st : state) :
  browser st = Live ->
  page_opens env self ->
  goto env url = Ok None ->
  urlparse_path env url = Ok path ->
  (forall alt, In alt (alternatives_for url path) ->
               no_response (goto env alt)) ->
  scrape_body env self url st =
    (Raise (ScrapingError "Failed to load page" url None),
     mkState (browser st) (S (open_pages st))
       (log st ++ EvNewPage :: map EvGoto (url :: alternatives_for url path))).
Proof.
  intros Hb Ho Hg Hp Halts. rewrite scrape_body_run by assumption.
  unfold bind. rewrite (navigate_no_response _ _ _ Hg Hp Halts).
  unfold page_opened. cbn [browser open_pages log].
  now rewrite <- app_assoc.
Qed.

(** The [try] block when the response that was obtained has a status of
    400 or more, whichever navigation obtained it. *)
Lemma scrape_body_http_error (url : string) (status : Z) (st st' : state) :
  browser st = Live ->
  page_opens env self ->
  navigate env url (page_opened st) = (Ok status, st') ->
  (status >= 400)%Z ->
  scrape_body env self url st =
    (Raise (ScrapingError ("HTTP " ++ str_of_int status) url (Some status)),
     st').
Proof.
  intros Hb Ho Hnav Hst. rewrite scrape_body_run by assumption.
  unfold bind. rewrite Hnav.
  replace (status >=? 400)%Z with true by (symmetry; apply Z.geb_le; lia).
  reflexivity.
Qed.

(** The [try] block on a page that loaded and is ready: it ends at the
    cookie step. *)
Lemma scrape_body_loaded (url : string) (status : Z) (st st' : state) :
  browser st = Live ->
  page_opens env self ->
  navigate env url (page_opened st) = (Ok status, st') ->
  (status < 400)%Z ->
  page_ready env ->
  scrape_body env self url st =
    (Raise (AttributeError
              "'WebScraper' object has no attribute '_handle_cookie_popups'"),
     st').
Proof.
  intros Hb Ho Hnav Hst Hr. rewrite scrape_body_run by assumption.
  unfold bind at 1. rewrite Hnav.
  replace (status >=? 400)%Z with false
    by (symmetry; rewrite Z.geb_leb; apply Z.leb_gt; lia).
  unfold bind. now rewrite (handle_anti_bot_stops _ Hr).
Qed.

(** [_handle_challenges] itself, on a page: the CAPTCHA probe comes first
    and decides alone when it finds one. *)
Lemma handle_challenges_run (st : state) (captcha : bool) :
  evaluate_captcha env = Ok captcha ->
  _handle_challenges env st =
    if captcha
    then (Raise (ScrapingError "CAPTCHA detected" (page_url env) None), st)
    else
      match evaluate_cloudflare env with
      | Ok true =>
          (Raise (ScrapingError "Cloudflare protection detected"
                    (page_url env) None), st)
      | Ok false => (Ok tt, st)
      | Raise e => (Raise e, st)
      end.
Proof.
  intros H. unfold _handle_challenges, bind, lift. rewrite H.
  destruct captcha; [reflexivity|].
  destruct (evaluate_cloudflare env) as [[|]|e]; reflexivity.
Qed.

End Scrape.

(** C5 asks that a navigation timeout come out as
    [ScrapingError("Page load timeout", url)].  The [except] clause tests
    the exception against [puppeteer.errors.TimeoutError] and the module
    never binds [puppeteer]: when the first navigation times out, what
    [scrape] raises is [NameError]. *)
Theorem scrape_first_navigation_timeout (env : Env) (self : WebScraper)
    (input : string) (st : state) :
  browser st = Live ->
  page_opens env self ->
  goto env (fst (normalize_url (head env) input)) = Raise TimeoutError ->
  fst (scrape env self input st) =
    Raise (NameError "name 'puppeteer' is not defined").
Proof.
  intros Hb Ho Hg.
  now rewrite (scrape_raises_name_error env self input TimeoutError st _
                 (scrape_body_navigation_raises env self _ _
                    (after_probes env input st) Hb Ho Hg)
                 eq_refl).
Qed.

Lemma scrape_first_navigation_timeout_witness :
  fst (scrape (Sample.env_with Sample.nav_timeout "" false false)
         Sample.scraper "https://example.com" (Sample.running 0)) =
    Raise (NameError "name 'puppeteer' is not defined").
Proof.
  apply (scrape_first_navigation_timeout
           (Sample.env_with Sample.nav_timeout "" false false)
           Sample.scraper "https://example.com" (Sample.running 0)).
  - reflexivity.
  - repeat split; try reflexivity. discriminate.
  - reflexivity.
Defined.

(** C7 asks for the three alternatives in order and then
    [ScrapingError("Failed to load page", url)].  The navigations are as
    asked: after a first navigation without response, [<url>/index.html],
    [<url>/home] and [<url>/main] in this order for an empty or [/] path
    and none for another path; but the [ScrapingError] raised after them
    is caught by the [except] clause, which raises [NameError]. *)
Theorem scrape_no_response_alternatives (env : Env) (self : WebScraper)
    (input path : string) (st : state) :
  let url := fst (normalize_url (head env) input) in
  browser st = Live ->
  page_opens env self ->
  goto env url = Ok None ->
  urlparse_path env url = Ok path ->
  (forall alt, In alt (alternatives_for url path) ->
               no_response (goto env alt)) ->
  fst (scrape env self input st) =
    Raise (NameError "name 'puppeteer' is not defined") /\
  gotos (log (snd (scrape env self input st))) =
    gotos (log st) ++
    url :: (if String.eqb path "" || String.eqb path "/"
            then [(url ++ "/index.html")%string;
                  (url ++ "/home")%string;
                  (url ++ "/main")%string]
            else []).
Proof.
  intros url Hb Ho Hg Hp Halts. subst url.
  rewrite (scrape_raises_name_error env self input _ st _
             (scrape_body_no_response env self _ path
                (after_probes env input st) Hb Ho Hg Hp Halts)
             eq_refl).
  split; [reflexivity|].
  cbn [snd log after_probes].
  change (EvNewPage :: ?l) with ([EvNewPage] ++ l).
  rewrite !gotos_app, gotos_heads, gotos_map_goto. cbn [gotos flat_map app].
  rewrite !app_nil_r. reflexivity.
Qed.

Lemma scrape_no_response_alternatives_witness :
  let root := Sample.env_with Sample.nav_none "" false false in
  let deep := Sample.env_with Sample.nav_none "/docs" false false in
  (fst (scrape root Sample.scraper "https://example.com"
          (Sample.running 0)) =
     Raise (NameError "name 'puppeteer' is not defined") /\
   gotos (log (snd (scrape root Sample.scraper "https://example.com"
                      (Sample.running 0)))) =
     ["https://example.com"; "https://example.com/index.html";
      "https://example.com/home"; "https://example.com/main"]) /\
  (fst (scrape deep Sample.scraper "https://example.com/docs"
          (Sample.running 0)) =
     Raise (NameError "name 'puppeteer' is not defined") /\
   gotos (log (snd (scrape deep Sample.scraper "https://example.com/docs"
                      (Sample.running 0)))) =
     ["https://example.com/docs"]).
Proof.
  split.
  - apply (scrape_no_response_alternatives
             (Sample.env_with Sample.nav_none "" false false)
             Sample.scraper "https://example.com" "" (Sample.running 0)).
    + reflexivity.
    + repeat split; try reflexivity. discriminate.
    + reflexivity.
    + reflexivity.
    + intros alt _. exact I.
  - apply (scrape_no_response_alternatives
             (Sample.env_with Sample.nav_none "/docs" false false)
             Sample.scraper "https://example.com/docs" "/docs"
             (Sample.running 0)).
    + reflexivity.
    + repeat split; try reflexivity. discriminate.
    + reflexivity.
    + reflexivity.
    + intros alt _. exact I.
Defined.

(** C8 asks for [ScrapingError("HTTP {status}", url, status)] and no
    alternative path.  For a first response with a status of 400 or more
    the only navigation of the call is the first one, as asked; but the
    [ScrapingError] raised for the status is caught by the [except] clause,
    which raises [NameError]: the status does not reach the caller. *)
Theorem scrape_http_error (env : Env) (self : WebScraper)
    (input : string) (status : Z) (st : state) :
  let url := fst (normalize_url (head env) input) in
  browser st = Live ->
  page_opens env self ->
  goto env url = Ok (Some status) ->
  (status >= 400)%Z ->
  fst (scrape env self input st) =
    Raise (NameError "name 'puppeteer' is not defined") /\
  gotos (log (snd (scrape env self input st))) = gotos (log st) ++ [url].
Proof.
  intros url Hb Ho Hg Hst. subst url.
  rewrite (scrape_raises_name_error env self input _ st _
             (scrape_body_http_error env self _ status
                (after_probes env input st) _ Hb Ho
                (navigate_response env _ _ _ Hg) Hst)
             eq_refl).
  split; [reflexivity|].
  cbn [snd log page_opened after_probes navigated].
  rewrite !gotos_app, gotos_heads. cbn [gotos flat_map app].
  rewrite !app_nil_r. reflexivity.
Qed.

Lemma scrape_http_error_witness :
  let r := scrape (Sample.env_with (Sample.nav_status 404) "" false false)
             Sample.scraper "https://example.com" (Sample.running 0) in
  fst r = Raise (NameError "name 'puppeteer' is not defined") /\
  gotos (log (snd r)) = ["https://example.com"].
Proof.
  apply (scrape_http_error
           (Sample.env_with (Sample.nav_status 404) "" false false)
           Sample.scraper "https://example.com" 404 (Sample.running 0)).
  - reflexivity.
  - repeat split; try reflexivity. discriminate.
  - reflexivity.
  - lia.
Defined.

(** C9 asks for a [ScrapingError] with the page's URL when a CAPTCHA or the
    interstitial is on the page.  [_handle_challenges] would raise it, but
    [_handle_anti_bot] calls [self._handle_cookie_popups] first and the
    class has no such method: on a page that loaded and is ready the
    challenge probes are never consulted, whatever is on the page; the
    [AttributeError] of the call is caught by the [except] clause, which
    raises [NameError].  Nothing is extracted. *)
Theorem scrape_challenge_check_not_reached (env : Env) (self : WebScraper)
    (input : string) (status : Z) (st : state) :
  let url := fst (normalize_url (head env) input) in
  browser st = Live ->
  page_opens env self ->
  goto env url = Ok (Some status) ->
  (status < 400)%Z ->
  page_ready env ->
  fst (scrape env self input st) =
    Raise (NameError "name 'puppeteer' is not defined") /\
  extractions (log (snd (scrape env self input st))) = extractions (log st).
Proof.
  intros url Hb Ho Hg Hst Hr. subst url.
  rewrite (scrape_raises_name_error env self input _ st _
             (scrape_body_loaded env self _ status
                (after_probes env input st) _ Hb Ho
                (navigate_response env _ _ _ Hg) Hst Hr)
             eq_refl).
  split; [reflexivity|].
  cbn [snd log page_opened after_probes navigated].
  rewrite !extractions_app, extractions_heads.
  cbn [extractions flat_map app]. now rewrite !app_nil_r.
Qed.

Lemma scrape_challenge_check_not_reached_witness :
  let captcha := Sample.env_with (Sample.nav_status 200) "" true false in
  let wall := Sample.env_with (Sample.nav_status 200) "" false true in
  (fst (scrape captcha Sample.scraper "https://example.com"
          (Sample.running 0)) =
     Raise (NameError "name 'puppeteer' is not defined") /\
   extractions (log (snd (scrape captcha Sample.scraper
                            "https://example.com" (Sample.running 0)))) = [])
  /\
  (fst (scrape wall Sample.scraper "https://example.com"
          (Sample.running 0)) =
     Raise (NameError "name 'puppeteer' is not defined") /\
   extractions (log (snd (scrape wall Sample.scraper
                            "https://example.com" (Sample.running 0)))) = []).
Proof.
  split.
  - apply (scrape_challenge_check_not_reached
             (Sample.env_with (Sample.nav_status 200) "" true false)
             Sample.scraper "https://example.com" 200 (Sample.running 0)).
    + reflexivity.
    + repeat split; try reflexivity. discriminate.
    + reflexivity.
    + lia.
    + repeat split.
  - apply (scrape_challenge_check_not_reached
             (Sample.env_with (Sample.nav_status 200) "" false true)
             Sample.scraper "https://example.com" 200 (Sample.running 0)).
    + reflexivity.
    + repeat split; try reflexivity. discriminate.
    + reflexivity.
    + lia.
    + repeat split.
Defined.

(** ** Page accounting *)

Create HintDb pages.

Section PageAccounting.

Variable env : Env.

Lemma keeps_ret {A} (a : A) : keeps_pages (ret a).
Proof. intros st. reflexivity. Qed.

Lemma keeps_raise {A} (e : exn) : keeps_pages (@raise A e).
Proof. intros st. reflexivity. Qed.

Lemma keeps_lift {A} (r : result A) : keeps_pages (lift r).
Proof. intros st. reflexivity. Qed.

Lemma keeps_emit (e : event) : keeps_pages (emit e).
Proof. intros st. reflexivity. Qed.

Lemma keeps_bind {A B} (m : M A) (k : A -> M B) :
  keeps_pages m -> (forall a, keeps_pages (k a)) -> keeps_pages (bind m k).
Proof.
  intros Hm Hk st. unfold bind. specialize (Hm st).
  destruct (m st) as [[a|e] st']; cbn [snd] in *; [|exact Hm].
  now rewrite Hk.
Qed.


#[local] Hint Resolve keeps_ret keeps_raise keeps_lift keeps_emit : pages.

Ltac keeps :=
  repeat first
    [ solve [auto with pages]
    | apply keeps_bind; [|intros ?]
    | match goal with
      | |- keeps_pages (if ?b then _ else _) => destruct b
      | |- keeps_pages (match ?x with _ => _ end) => destruct x
      end ].

Lemma keeps_page_goto (url : string) : keeps_pages (page_goto env url).
Proof. unfold page_goto. keeps. Qed.

Lemma keeps_try_alternatives (alts : list string) (response : option Z) :
  keeps_pages (try_alternatives env alts response).
Proof.
  revert response. induction alts as [|alt rest IH]; intros response st.
  - reflexivity.
  - cbn [try_alternatives]. rewrite page_goto_run.
    destruct (goto env alt) as [[status|]|e]; [reflexivity| |];
      rewrite IH; reflexivity.
Qed.

#[local] Hint Resolve keeps_page_goto keeps_try_alternatives : pages.

Lemma keeps_navigate (url : string) : keeps_pages (navigate env url).
Proof. unfold navigate. keeps. Qed.

Lemma keeps_setup_page (self : WebScraper) :
  keeps_pages (_setup_page env self).
Proof.
  unfold _setup_page, random_choice, _inject_stealth_scripts.
  destruct (user_agents (config self)); keeps.
Qed.

Lemma keeps_handle_anti_bot : keeps_pages (_handle_anti_bot env).
Proof.
  unfold _handle_anti_bot, _simulate_scrolling, _handle_cookie_popups,
    _handle_challenges, missing_method.
  keeps.
Qed.

#[local] Hint Resolve keeps_navigate keeps_setup_page keeps_handle_anti_bot : pages.





End PageAccounting.

(** C1 asks that the page opened by [scrape] be closed on every exit path.
    The only [page.close()] of the code is the last statement of the [try]
    block; the [except] clause does not close and there is no [finally]:
    here the response has status 404, [scrape] raises, the count of open
    pages is one above its value before the call and the log has no
    [page.close()]. *)
Theorem scrape_error_leaves_page_open :
  let env := Sample.env_with (Sample.nav_status 404) "" false false in
  let before := Sample.running 2 in
  let r := scrape env Sample.scraper "https://example.com" before in
  fst r = Raise (NameError "name 'puppeteer' is not defined") /\
  open_pages before = 2 /\
  open_pages (snd r) = 3 /\
  log (snd r) = [EvNewPage; EvGoto "https://example.com"].
Proof.
  repeat split.
Qed.

(** ** The browser life cycle *)

Section LifeCycle.

Variable env : Env.

(** Awaiting [_setup_puppeteer] launches nothing either: it raises at the
    name [puppeteer] and leaves the scraper as it was. *)
Lemma setup_puppeteer_raises (st : state) :
  _setup_puppeteer env st =
    (Raise (NameError "name 'puppeteer' is not defined"), st).
Proof. reflexivity. Qed.

(** [close] on a live browser clears the handle. *)
Lemma close_clears_browser (st : state) :
  browser st = Live ->
  browser_close env = Ok tt ->
  fst (close env st) = Ok tt /\ browser (snd (close env st)) = PyNone.
Proof.
  intros Hb Hc. unfold close, bind, get_state, lift. rewrite Hb, Hc.
  split; reflexivity.
Qed.

(** With the handle cleared or never set, [scrape] raises: the
    [AttributeError] of [self.browser.newPage()] is caught by the [except]
    clause, which raises [NameError]. *)
Lemma scrape_without_browser (self : WebScraper) (input : string)
    (st : state) :
  browser st <> Live ->
  fst (scrape env self input st) =
    Raise (NameError "name 'puppeteer' is not defined").
Proof.
  intros Hb. rewrite scrape_run. cbv zeta.
  unfold try_except, scrape_body.
  unfold bind at 1. unfold browser_newPage, bind at 1, get_state.
  cbn [after_probes browser].
  destruct (browser st); [reflexivity | reflexivity | congruence].
Qed.

Lemma scrape_after_close (self : WebScraper) (input : string)
    (st : state) :
  browser st = Live ->
  browser_close env = Ok tt ->
  fst (scrape env self input (snd (close env st))) =
    Raise (NameError "name 'puppeteer' is not defined").
Proof.
  intros Hb Hc. apply scrape_without_browser.
  destruct (close_clears_browser st Hb Hc) as [_ ->]. discriminate.
Qed.

(** [close] on a scraper that was only constructed raises at
    [if self.browser]. *)
Lemma close_without_browser (st : state) :
  browser st = Unset ->
  close env st =
    (Raise (AttributeError "'WebScraper' object has no attribute 'browser'"),
     st).
Proof.
  intros Hb. unfold close, bind, get_state. now rewrite Hb.
Qed.

End LifeCycle.

(** C3 asks that a live browser exist after construction.  [__init__]
    only builds the coroutine of [_setup_puppeteer] and never runs it: in
    every environment, whatever the state before, the constructed scraper
    has no [browser] attribute, nothing was launched, and the first
    [scrape] raises. *)
Theorem init_leaves_browser_unset (env : Env) (cfg : option ScrapingConfig)
    (vault : option string) (input : string) (st : state) :
  let self := mkWebScraper (merge_config cfg) vault in
  let constructed := __init__ env cfg vault st in
  fst constructed = Ok self /\
  browser (snd constructed) = Unset /\
  log (snd constructed) = log st /\
  fst (scrape env self input (snd constructed)) =
    Raise (NameError "name 'puppeteer' is not defined") /\
  fst (close env (snd constructed)) =
    Raise (AttributeError "'WebScraper' object has no attribute 'browser'").
Proof.
  cbv zeta. repeat split.
  rewrite scrape_run. cbv zeta. reflexivity.
Qed.

(** * Further properties of [normalize_url] *)

Section CandidateShapes.

Lemma flat_map_singleton {A} (l : list A) : flat_map (fun x => [x]) l = l.
Proof. induction l as [|x l IH]; simpl; [reflexivity|]. now rewrite IH. Qed.

(** The prefix loop keeps every base as it is, so the candidates are the
    bases. *)
Lemma candidates_are_bases (url : string) :
  candidates url = if Re.match_ipv4 url then [url] else base_candidates url.
Proof.
  destruct (Re.match_ipv4 url) eqn:E.
  - unfold candidates. now rewrite E.
  - rewrite (candidates_not_ip _ E).
    rewrite (flat_map_ext _ _ prefix_variants_keeps).
    apply flat_map_singleton.
Qed.

Lemma final_candidates_single (url : string) :
  candidates url = [url] ->
  final_candidates url =
    [("https://" ++ url)%string; ("http://" ++ url)%string].
Proof.
  intros H. rewrite final_candidates_flat_map, H. reflexivity.
Qed.

End CandidateShapes.

(** X1: for a dotted-quad input there is no suffix and no prefix variant:
    the candidates are the address under [https://] and then [http://]. *)
Theorem final_candidates_ipv4 (url : string) :
  Re.match_ipv4 url = true ->
  final_candidates url =
    [("https://" ++ url)%string; ("http://" ++ url)%string].
Proof.
  intros H. apply final_candidates_single.
  rewrite candidates_are_bases. now rewrite H.
Qed.

Lemma final_candidates_ipv4_witness :
  final_candidates "192.168.1.20" =
    ["https://192.168.1.20"; "http://192.168.1.20"].
Proof.
  apply (final_candidates_ipv4 "192.168.1.20"). reflexivity.
Defined.

(** X2: an input that already ends in a known suffix is the only base, and
    it is probed as it is under [https://] and then [http://]; no other
    suffix and no [www.] form is tried. *)
Theorem final_candidates_known_suffix (url : string) :
  has_known_suffix url = true ->
  final_candidates url =
    [("https://" ++ url)%string; ("http://" ++ url)%string].
Proof.
  intros H. apply final_candidates_single.
  rewrite candidates_are_bases.
  destruct (Re.match_ipv4 url); [reflexivity|].
  unfold base_candidates. now rewrite H.
Qed.

Lemma final_candidates_known_suffix_witness :
  final_candidates "docs.example.io/guide.net" =
    ["https://docs.example.io/guide.net"; "http://docs.example.io/guide.net"].
Proof.
  apply (final_candidates_known_suffix "docs.example.io/guide.net").
  reflexivity.
Defined.

(** X3: one call of [normalize_url] issues at most 24 HEAD requests,
    whatever the input and however the hosts answer. *)
Theorem normalize_url_at_most_24_probes (head : string -> probe)
    (input : string) :
  length (snd (normalize_url head input)) <= 24.
Proof.
  eapply Nat.le_trans; [apply normalize_url_probe_bound|].
  rewrite final_candidates_flat_map, length_flat_map_protocols.
  rewrite candidates_are_bases.
  destruct (Re.match_ipv4 _); [simpl; lia|].
  destruct (has_known_suffix (host_part input)) eqn:E.
  - unfold base_candidates. rewrite E. simpl. lia.
  - rewrite (base_candidates_no_suffix _ E). simpl. lia.
Qed.

Section FirstSuccess.

Variable head : string -> probe.

Lemma probe_loop_first_success (before after : list string)
    (candidate final_url : string) (status : Z) :
  (forall c, In c before -> probe_fails (head c) = true) ->
  head candidate = ProbeResponse status final_url ->
  (status < 400)%Z ->
  probe_loop head (before ++ candidate :: after) =
    (Some final_url, before ++ [candidate]).
Proof.
  intros Hb Hc Hlt. induction before as [|b rest IH].
  - simpl. rewrite Hc.
    replace (status <? 400)%Z with true by (symmetry; now apply Z.ltb_lt).
    reflexivity.
  - cbn [app probe_loop].
    assert (Hfail := Hb b (or_introl eq_refl)).
    rewrite IH by (intros c Hin; apply Hb; now right).
    destruct (head b) as [|s u]; [reflexivity|].
    simpl in Hfail. apply negb_true_iff in Hfail. now rewrite Hfail.
Qed.

End FirstSuccess.

(** X4: the first candidate, in list order, whose HEAD request answers with
    a status below 400 decides the result: [normalize_url] returns the URL
    that response reached after redirects, having probed the candidates up
    to that one and none after it. *)
Theorem normalize_url_first_success_wins (head : string -> probe)
    (input : string) (before after : list string)
    (candidate final_url : string) (status : Z) :
  has_scheme (clean input) = false ->
  final_candidates (host_part input) = before ++ candidate :: after ->
  (forall c, In c before -> probe_fails (head c) = true) ->
  head candidate = ProbeResponse status final_url ->
  (status < 400)%Z ->
  normalize_url head input = (final_url, before ++ [candidate]).
Proof.
  intros Hs Hsplit Hb Hc Hlt. unfold normalize_url. rewrite Hs.
  fold (host_part input). rewrite Hsplit.
  now rewrite (probe_loop_first_success head _ _ _ _ _ Hb Hc Hlt).
Qed.

Lemma normalize_url_first_success_wins_witness :
  normalize_url SampleProbe.flaky_head "Example.org" =
    ("http://www.example.org/home",
     ["https://example.org"; "http://example.org"]).
Proof.
  apply (normalize_url_first_success_wins SampleProbe.flaky_head
           "Example.org" ["https://example.org"] [] "http://example.org"
           "http://www.example.org/home" 200).
  - reflexivity.
  - reflexivity.
  - intros c [<-|[]]. reflexivity.
  - reflexivity.
  - lia.
Defined.

Lemma in_firstn {A} (n : nat) (l : list A) (x : A) :
  In x (firstn n l) -> In x l.
Proof.
  intros H. rewrite <- (firstn_skipn n l). apply in_or_app. now left.
Qed.

Lemma has_scheme_http (t : string) : has_scheme ("http://" ++ t) = true.
Proof.
  unfold has_scheme. now rewrite (startswith_app "http://" t).
Qed.

(** X5: every URL [normalize_url] sends a HEAD request to begins with
    [https://] or [http://]. *)
Theorem normalize_url_probes_have_scheme (head : string -> probe)
    (input candidate : string) :
  In candidate (snd (normalize_url head input)) ->
  has_scheme candidate = true.
Proof.
  destruct (has_scheme (clean input)) eqn:Hs.
  - unfold normalize_url. rewrite Hs. intros [].
  - rewrite normalize_url_probed by assumption.
    destruct (probe_loop_in_order head (final_candidates (host_part input)))
      as [n ->].
    intros Hin. apply in_firstn in Hin.
    rewrite final_candidates_flat_map in Hin.
    apply in_flat_map in Hin. destruct Hin as (c & _ & Hin).
    unfold with_protocols, COMMON_PROTOCOLS in Hin. simpl in Hin.
    destruct Hin as [<-|[<-|[]]].
    + apply has_scheme_https.
    + apply has_scheme_http.
Qed.

Lemma normalize_url_probes_have_scheme_witness :
  has_scheme "http://example.org" = true.
Proof.
  apply (normalize_url_probes_have_scheme SampleProbe.flaky_head
           "Example.org" "http://example.org").
  simpl. tauto.
Defined.

Section SchemeStripping.

Lemma after_last_scheme_tail (c : ascii) (s : string) :
  Re.after_last_scheme (String c s) = None ->
  Ascii.eqb c newline = false ->
  Re.after_last_scheme s = None.
Proof.
  intros H Hc. cbn [Re.after_last_scheme] in H. rewrite Hc in H.
  destruct (Re.after_last_scheme s); [discriminate | reflexivity].
Qed.

(** Nothing that the pattern could match is left after a match. *)
Lemma after_last_scheme_rest (s r : string) :
  Re.after_last_scheme s = Some r -> Re.after_last_scheme r = None.
Proof.
  induction s as [|c s IH]; intros H; [discriminate|].
  cbn [Re.after_last_scheme] in H.
  destruct (Ascii.eqb c newline) eqn:Hc; [discriminate|].
  destruct (Re.after_last_scheme s) as [r'|] eqn:E.
  - injection H as ->. now apply IH.
  - destruct (startswith (String c s) "://") eqn:P; [|discriminate].
    injection H as <-.
    destruct (startswith_split _ _ P) as [t Ht].
    injection Ht as -> ->. cbn [append drop].
    apply (after_last_scheme_tail "/"); [|reflexivity].
    apply (after_last_scheme_tail "/"); [|reflexivity].
    exact E.
Qed.

Lemma after_last_scheme_at_scheme (host : string) :
  Re.after_last_scheme host = None ->
  Re.after_last_scheme ("://" ++ host) = Some host.
Proof.
  intros H. cbn [append Re.after_last_scheme].
  change (Ascii.eqb ":" newline) with false.
  change (Ascii.eqb "/" newline) with false.
  cbv iota. rewrite H.
  replace (startswith (String "/" host) "://") with false by reflexivity.
  replace (startswith (String "/" (String "/" host)) "://") with false
    by reflexivity.
  cbv iota.
  replace (startswith (String ":" (String "/" (String "/" host))) "://")
    with true; [reflexivity|].
  symmetry. apply (startswith_app "://" host).
Qed.

Lemma after_last_scheme_behind (scheme rest r : string) :
  no_newline scheme = true ->
  Re.after_last_scheme rest = Some r ->
  Re.after_last_scheme (scheme ++ rest) = Some r.
Proof.
  induction scheme as [|c s IH]; intros Hn Hr; [exact Hr|].
  cbn [no_newline] in Hn. apply andb_true_iff in Hn. destruct Hn as [Hc Hs].
  apply negb_true_iff in Hc.
  cbn [append Re.after_last_scheme]. rewrite Hc.
  now rewrite (IH Hs Hr).
Qed.

End SchemeStripping.

(** X6: whatever stands before a [://] is dropped, not only a protocol the
    scraper knows: for a one-line [scheme] and a [host] without [://],
    stripping [scheme://host] leaves [host]. *)
Theorem sub_scheme_drops_any_scheme (scheme host : string) :
  no_newline scheme = true ->
  Re.after_last_scheme host = None ->
  Re.sub_scheme (scheme ++ "://" ++ host) = host.
Proof.
  intros Hn Hh. unfold Re.sub_scheme.
  rewrite (after_last_scheme_behind scheme _ host Hn
             (after_last_scheme_at_scheme host Hh)).
  reflexivity.
Qed.

Lemma sub_scheme_drops_any_scheme_witness :
  Re.sub_scheme "view-source:ftp://example.com" = "example.com".
Proof.
  apply (sub_scheme_drops_any_scheme "view-source:ftp" "example.com");
    reflexivity.
Defined.

(** X7: the stripping is complete: its result has no match of the pattern
    left, so stripping once more changes nothing. *)
Theorem sub_scheme_idempotent (s : string) :
  Re.sub_scheme (Re.sub_scheme s) = Re.sub_scheme s.
Proof.
  unfold Re.sub_scheme.
  destruct (Re.after_last_scheme s) as [r|] eqn:E.
  - now rewrite (after_last_scheme_rest _ _ E).
  - now rewrite E.
Qed.

(** * Further properties of [scrape] *)

(** X13: with an empty list of user agents in the configuration,
    [random.choice] raises [IndexError] during the page setup: the [try]
    block ends there, after the page was opened and before any navigation,
    [scrape] raises, and the page stays open. *)
Theorem scrape_empty_user_agents (env : Env) (self : WebScraper)
    (input : string) (st : state) :
  browser st = Live ->
  new_page env = Ok tt ->
  user_agents (config self) = [] ->
  fst (scrape_body env self (fst (normalize_url (head env) input))
         (after_probes env input st)) =
    Raise (IndexError "Cannot choose from an empty sequence") /\
  fst (scrape env self input st) =
    Raise (NameError "name 'puppeteer' is not defined") /\
  gotos (log (snd (scrape env self input st))) = gotos (log st) /\
  open_pages (snd (scrape env self input st)) = S (open_pages st).
Proof.
  intros Hb Hn Hua.
  assert (B : scrape_body env self (fst (normalize_url (head env) input))
                (after_probes env input st) =
              (Raise (IndexError "Cannot choose from an empty sequence"),
               page_opened (after_probes env input st))).
  { unfold scrape_body.
    rewrite (new_page_run env _ (after_probes env input st) Hb Hn).
    unfold bind at 1. unfold _setup_page, bind at 1, random_choice.
    rewrite Hua. reflexivity. }
  rewrite (scrape_raises_name_error env self input _ st _ B eq_refl).
  rewrite B. repeat split.
  cbn [snd log page_opened after_probes].
  rewrite !gotos_app, gotos_heads. cbn [gotos flat_map app].
  now rewrite !app_nil_r.
Qed.

Lemma scrape_empty_user_agents_witness :
  let env := Sample.env_with (Sample.nav_status 200) "" false false in
  let r := scrape env SampleRun.no_agents "https://example.com"
             (Sample.running 0) in
  fst (scrape_body env SampleRun.no_agents "https://example.com"
         (Sample.running 0)) =
    Raise (IndexError "Cannot choose from an empty sequence") /\
  fst r = Raise (NameError "name 'puppeteer' is not defined") /\
  gotos (log (snd r)) = [] /\
  open_pages (snd r) = 1.
Proof.
  apply (scrape_empty_user_agents
           (Sample.env_with (Sample.nav_status 200) "" false false)
           SampleRun.no_agents "https://example.com" (Sample.running 0));
    reflexivity.
Defined.

(** * What a call may add to the log *)

Section Confinement.

Variable P : event -> Prop.

Lemma confined_ret {A} (a : A) : confined P (ret a).
Proof. intros st. split; [reflexivity|]. exists []. now rewrite app_nil_r. Qed.

Lemma confined_raise {A} (e : exn) : confined P (@raise A e).
Proof. intros st. split; [reflexivity|]. exists []. now rewrite app_nil_r. Qed.

Lemma confined_lift {A} (r : result A) : confined P (lift r).
Proof. intros st. split; [reflexivity|]. exists []. now rewrite app_nil_r. Qed.

Lemma confined_get_state : confined P get_state.
Proof. intros st. split; [reflexivity|]. exists []. now rewrite app_nil_r. Qed.

Lemma confined_set_open_pages (n : nat) : confined P (set_open_pages n).
Proof. intros st. split; [reflexivity|]. exists []. simpl. now rewrite app_nil_r. Qed.

Lemma confined_emit_all (es : list event) :
  Forall P es -> confined P (emit_all es).
Proof. intros H st. split; [reflexivity|]. now exists es. Qed.

Lemma confined_emit (e : event) : P e -> confined P (emit e).
Proof.
  intros H st. split; [reflexivity|]. exists [e]. split; [reflexivity|].
  now constructor.
Qed.

Lemma confined_bind {A B} (m : M A) (k : A -> M B) :
  confined P m -> (forall a, confined P (k a)) -> confined P (bind m k).
Proof.
  intros Hm Hk st. unfold bind.
  destruct (Hm st) as (Hb & added & Hl & Hf).
  destruct (m st) as [[a|e] st']; cbn [snd] in *.
  - destruct (Hk a st') as (Hb' & added' & Hl' & Hf').
    split; [congruence|]. exists (added ++ added'). split.
    + now rewrite Hl', Hl, app_assoc.
    + apply Forall_app. now split.
  - split; [assumption|]. now exists added.
Qed.

Lemma confined_try_except {A} (body : M A) (handler : exn -> M A) :
  confined P body -> (forall e, confined P (handler e)) ->
  confined P (try_except body handler).
Proof.
  intros Hm Hk st. unfold try_except.
  destruct (Hm st) as (Hb & added & Hl & Hf).
  destruct (body st) as [[a|e] st']; cbn [snd] in *.
  - split; [assumption|]. now exists added.
  - destruct (is_Exception e); [|split; [assumption | now exists added]].
    destruct (Hk e st') as (Hb' & added' & Hl' & Hf').
    split; [congruence|]. exists (added ++ added'). split.
    + now rewrite Hl', Hl, app_assoc.
    + apply Forall_app. now split.
Qed.

Variable env : Env.

Lemma confined_try_alternatives (alts : list string) (response : option Z) :
  (forall a, In a alts -> P (EvGoto a)) ->
  confined P (try_alternatives env alts response).
Proof.
  revert response. induction alts as [|alt rest IH]; intros response H.
  - apply confined_ret.
  - intros st. cbn [try_alternatives]. rewrite page_goto_run.
    assert (Hrest : forall a, In a rest -> P (EvGoto a))
      by (intros a Hin; apply H; now right).
    assert (Halt : P (EvGoto alt)) by (apply H; now left).
    assert (Hstep : forall r,
               browser (snd (try_alternatives env rest r
                               (navigated alt st))) = browser st /\
               exists added,
                 log (snd (try_alternatives env rest r (navigated alt st)))
                   = log st ++ added /\ Forall P added).
    { intros r. destruct (IH r Hrest (navigated alt st))
        as (Hb & added & Hl & Hf).
      split; [exact Hb|]. exists (EvGoto alt :: added). split.
      - rewrite Hl. unfold navigated. cbn [log].
        now rewrite <- app_assoc.
      - now constructor. }
    destruct (goto env alt) as [[status|]|e]; [|apply Hstep..].
    cbn [snd]. split; [reflexivity|]. exists [EvGoto alt].
    split; [reflexivity|]. now constructor.
Qed.

End Confinement.

Ltac confine :=
  repeat first
    [ apply confined_ret | apply confined_raise | apply confined_lift
    | apply confined_get_state | apply confined_set_open_pages
    | apply confined_emit; first [solve [simpl; auto] | reflexivity]
    | apply confined_bind; [|intros ?]
    | match goal with
      | |- confined _ (if ?b then _ else _) => destruct b eqn:?
      | |- confined _ (match ?x with _ => _ end) => destruct x eqn:?
      end ].

Section ScrapeConfined.

Variable env : Env.
Variable self : WebScraper.

Lemma in_final_candidates_has_scheme (url candidate : string) :
  In candidate (final_candidates url) -> has_scheme candidate = true.
Proof.
  rewrite final_candidates_flat_map. intros Hin.
  apply in_flat_map in Hin. destruct Hin as (c & _ & Hin).
  unfold with_protocols, COMMON_PROTOCOLS in Hin. simpl in Hin.
  destruct Hin as [<-|[<-|[]]].
  - apply has_scheme_https.
  - apply has_scheme_http.
Qed.

Lemma probes_are_candidates (input candidate : string) :
  In candidate (snd (normalize_url (head env) input)) ->
  In candidate (final_candidates (host_part input)).
Proof.
  destruct (has_scheme (clean input)) eqn:Hs.
  - unfold normalize_url. rewrite Hs. intros [].
  - rewrite normalize_url_probed by assumption.
    destruct (probe_loop_in_order (head env)
                (final_candidates (host_part input))) as [n ->].
    apply in_firstn.
Qed.

Lemma alternatives_are_known (url path a : string) :
  In a (alternatives_for url path) ->
  In a [url; (url ++ "/index.html")%string; (url ++ "/home")%string;
        (url ++ "/main")%string].
Proof.
  unfold alternatives_for.
  destruct (String.eqb path "" || String.eqb path "/"); [|intros []].
  intros H. now right.
Qed.

Lemma navigate_confined (url : string) :
  confined (scrape_may self url) (navigate env url).
Proof.
  unfold navigate. apply confined_bind.
  - unfold page_goto. confine.
  - intros [status|]; [apply confined_ret|].
    apply confined_bind; [apply confined_lift|intros path].
    apply confined_bind.
    + apply confined_try_alternatives. intros a Ha. simpl.
      now apply (alternatives_are_known url path).
    + intros [status|]; confine.
Qed.

Lemma collect_confined (url : string) :
  confined (scrape_may self url) (collect env self url).
Proof.
  unfold collect, _extract_metadata, _extract_content, _handle_images,
    _extract_links, _take_screenshots, page_close_call, missing_method.
  confine.
Qed.

Lemma scrape_body_confined (url : string) :
  confined (scrape_may self url) (scrape_body env self url).
Proof.
  unfold scrape_body.
  apply confined_bind; [unfold browser_newPage; confine | intros _].
  apply confined_bind.
  { unfold _setup_page, random_choice, _inject_stealth_scripts.
    destruct (user_agents (config self)); confine. }
  intros _.
  apply confined_bind; [apply navigate_confined | intros status].
  destruct (status >=? 400)%Z; [apply confined_raise|].
  apply confined_bind; [|intros _; apply collect_confined].
  unfold _handle_anti_bot, _simulate_scrolling, _handle_cookie_popups,
    _handle_challenges, missing_method.
  confine.
Qed.

Lemma scrape_handler_confined (P : event -> Prop) (url : string)
    (e : exn) :
  confined P (scrape_handler url e).
Proof.
  unfold scrape_handler, puppeteer_name.
  apply confined_bind; [apply confined_raise | intros _].
  destruct e; apply confined_raise.
Qed.

(** Every event one call of [scrape] adds to the log is one the call may
    cause, and [self.browser] is what it was. *)
Lemma scrape_confined (input : string) :
  confined (scrape_may self (fst (normalize_url (head env) input)))
    (scrape env self input).
Proof.
  intros st. rewrite scrape_run. cbv zeta.
  destruct (confined_try_except _ _ _
              (scrape_body_confined (fst (normalize_url (head env) input)))
              (scrape_handler_confined _
                 (fst (normalize_url (head env) input)))
              (after_probes env input st))
    as (Hb & added & Hl & Hf).
  split; [exact Hb|].
  exists (map EvHead (snd (normalize_url (head env) input)) ++ added).
  split.
  - rewrite Hl. unfold after_probes. cbn [log]. now rewrite app_assoc.
  - apply Forall_app. split; [|exact Hf].
    apply Forall_forall. intros e He. apply in_map_iff in He.
    destruct He as (c & <- & Hc). simpl.
    apply (in_final_candidates_has_scheme (host_part input)).
    now apply probes_are_candidates.
Qed.

End ScrapeConfined.

Section Navigations.

Variable env : Env.
Variable self : WebScraper.

Lemma gotos_not_goto (added : list event) :
  Forall not_goto added -> gotos added = [].
Proof.
  induction 1 as [|e l He _ IH]; [reflexivity|].
  change (gotos (e :: l)) with (gotos ([e] ++ l)).
  now rewrite gotos_app, He, IH.
Qed.

Lemma silent_gotos {A} (m : M A) (st : state) :
  confined not_goto m -> gotos (log (snd (m st))) = gotos (log st).
Proof.
  intros H. destruct (H st) as (_ & added & -> & Hf).
  now rewrite gotos_app, (gotos_not_goto _ Hf), app_nil_r.
Qed.

Lemma along_bind_l {A B} (targets : list string) (m : M A) (k : A -> M B) :
  confined not_goto m -> (forall a, navigates_along targets (k a)) ->
  navigates_along targets (bind m k).
Proof.
  intros Hm Hk st. unfold bind. pose proof (silent_gotos m st Hm) as Hs.
  destruct (m st) as [[a|e] st']; cbn [snd] in *.
  - destruct (Hk a st') as [n Hn]. exists n. now rewrite Hn, Hs.
  - exists 0. now rewrite Hs, app_nil_r.
Qed.

Lemma along_bind_r {A B} (targets : list string) (m : M A) (k : A -> M B) :
  navigates_along targets m -> (forall a, confined not_goto (k a)) ->
  navigates_along targets (bind m k).
Proof.
  intros Hm Hk st. unfold bind. destruct (Hm st) as [n Hn].
  destruct (m st) as [[a|e] st']; cbn [snd] in *.
  - exists n. now rewrite (silent_gotos (k a) st' (Hk a)).
  - now exists n.
Qed.

Lemma along_try_except {A} (targets : list string) (body : M A)
    (handler : exn -> M A) :
  navigates_along targets body -> (forall e, confined not_goto (handler e)) ->
  navigates_along targets (try_except body handler).
Proof.
  intros Hm Hk st. unfold try_except. destruct (Hm st) as [n Hn].
  destruct (body st) as [[a|e] st']; cbn [snd] in *.
  - now exists n.
  - exists n. destruct (is_Exception e); [|exact Hn].
    now rewrite (silent_gotos (handler e) st' (Hk e)).
Qed.

Lemma try_alternatives_along (alts : list string) (response : option Z) :
  navigates_along alts (try_alternatives env alts response).
Proof.
  revert response. induction alts as [|alt rest IH]; intros response st.
  - exists 0. simpl. now rewrite app_nil_r.
  - cbn [try_alternatives]. rewrite page_goto_run.
    assert (Hstep : forall r,
               exists n,
                 gotos (log (snd (try_alternatives env rest r
                                    (navigated alt st)))) =
                 gotos (log st) ++ firstn n (alt :: rest)).
    { intros r. destruct (IH r (navigated alt st)) as [n Hn].
      exists (S n). rewrite Hn. unfold navigated. cbn [log firstn].
      rewrite gotos_app. cbn [gotos flat_map app].
      now rewrite <- app_assoc. }
    destruct (goto env alt) as [[status|]|e]; [|apply Hstep..].
    exists 1. unfold navigated. cbn [snd log firstn].
    now rewrite gotos_app.
Qed.

Lemma navigate_along (url : string) :
  navigates_along
    [url; (url ++ "/index.html")%string; (url ++ "/home")%string;
     (url ++ "/main")%string]
    (navigate env url).
Proof.
  intros st. unfold navigate, bind at 1. rewrite page_goto_run.
  assert (Hone : gotos (log (navigated url st)) =
                 gotos (log st) ++
                 firstn 1 [url; (url ++ "/index.html")%string;
                           (url ++ "/home")%string;
                           (url ++ "/main")%string]).
  { unfold navigated. cbn [log firstn]. now rewrite gotos_app. }
  destruct (goto env url) as [[status|]|e];
    [exists 1; exact Hone | | exists 1; exact Hone].
  unfold bind at 1, lift.
  destruct (urlparse_path env url) as [path|e]; [|exists 1; exact Hone].
  unfold bind.
  destruct (try_alternatives_along (alternatives_for url path) None
              (navigated url st)) as [n Hn].
  assert (Hrest : exists k,
             gotos (log (snd (try_alternatives env
                                (alternatives_for url path) None
                                (navigated url st)))) =
             gotos (log st) ++
             firstn k [url; (url ++ "/index.html")%string;
                       (url ++ "/home")%string; (url ++ "/main")%string]).
  { unfold alternatives_for in *.
    destruct (String.eqb path "" || String.eqb path "/").
    - exists (S n). rewrite Hn, Hone. cbn [firstn].
      now rewrite <- app_assoc.
    - exists 1. rewrite Hn, Hone, firstn_nil. now rewrite app_nil_r. }
  destruct (try_alternatives env _ None (navigated url st))
    as [[[status|]|e] st']; exact Hrest.
Qed.

Lemma new_page_silent : confined not_goto (browser_newPage env).
Proof. unfold browser_newPage. confine. Qed.

Lemma setup_page_silent : confined not_goto (_setup_page env self).
Proof.
  unfold _setup_page, random_choice, _inject_stealth_scripts.
  destruct (user_agents (config self)); confine.
Qed.

Lemma handle_anti_bot_silent : confined not_goto (_handle_anti_bot env).
Proof.
  unfold _handle_anti_bot, _simulate_scrolling, _handle_cookie_popups,
    _handle_challenges, missing_method.
  confine.
Qed.

Lemma collect_silent (url : string) :
  confined not_goto (collect env self url).
Proof.
  unfold collect, _extract_metadata, _extract_content, _handle_images,
    _extract_links, _take_screenshots, page_close_call, missing_method.
  confine.
Qed.

Lemma scrape_body_along (url : string) :
  navigates_along
    [url; (url ++ "/index.html")%string; (url ++ "/home")%string;
     (url ++ "/main")%string]
    (scrape_body env self url).
Proof.
  unfold scrape_body.
  apply along_bind_l; [apply new_page_silent | intros _].
  apply along_bind_l; [apply setup_page_silent | intros _].
  apply along_bind_r; [apply navigate_along | intros status].
  destruct (status >=? 400)%Z; [apply confined_raise|].
  apply confined_bind;
    [apply handle_anti_bot_silent | intros _; apply collect_silent].
Qed.

End Navigations.

(** X14: in every call, whatever the collaborators do, the navigations of
    [scrape] are an initial segment of: the normalized URL,
    [<url>/index.html], [<url>/home], [<url>/main]; at most four, in this
    order, none repeated and no other address. *)
Theorem scrape_navigations_initial_segment (env : Env) (self : WebScraper)
    (input : string) (st : state) :
  let url := fst (normalize_url (head env) input) in
  exists n,
    gotos (log (snd (scrape env self input st))) =
      gotos (log st) ++
      firstn n [url; (url ++ "/index.html")%string;
                (url ++ "/home")%string; (url ++ "/main")%string].
Proof.
  cbv zeta. rewrite scrape_run. cbv zeta.
  destruct (along_try_except _ _ _
              (scrape_body_along env self
                 (fst (normalize_url (head env) input)))
              (scrape_handler_confined not_goto
                 (fst (normalize_url (head env) input)))
              (after_probes env input st)) as [n Hn].
  exists n. rewrite Hn. unfold after_probes. cbn [log].
  now rewrite gotos_app, gotos_heads, app_nil_r.
Qed.

(** X15: [scrape] never launches or closes the browser and never rebinds
    [self.browser]: the attribute is what it was before the call, and
    among the events the call adds there is no launch and no browser
    close. *)
Theorem scrape_leaves_browser (env : Env) (self : WebScraper)
    (input : string) (st : state) :
  browser (snd (scrape env self input st)) = browser st /\
  exists added,
    log (snd (scrape env self input st)) = log st ++ added /\
    ~ In EvLaunch added /\ ~ In EvBrowserClose added.
Proof.
  destruct (scrape_confined env self input st) as (Hb & added & Hl & Hf).
  split; [exact Hb|]. exists added. split; [exact Hl|].
  rewrite Forall_forall in Hf.
  split; intros Hin; exact (Hf _ Hin).
Qed.





Section LogOrder.

Variable env : Env.
Variable self : WebScraper.








End LogOrder.





(** X20: [_handle_challenges] looks for a CAPTCHA first: when it finds
    one it raises [ScrapingError("CAPTCHA detected", page.url)] without
    consulting the interstitial probe, whatever that probe would return or
    raise, and leaves the scraper as it was. *)
Theorem handle_challenges_captcha_first (env : Env) (st : state) :
  evaluate_captcha env = Ok true ->
  _handle_challenges env st =
    (Raise (ScrapingError "CAPTCHA detected" (page_url env) None), st).
Proof.
  intros H. now rewrite (handle_challenges_run env st true H).
Qed.

Lemma handle_challenges_captcha_first_witness :
  _handle_challenges SampleLife.env_captcha (Sample.running 1) =
    (Raise (ScrapingError "CAPTCHA detected" "https://example.com/verify"
              None),
     Sample.running 1).
Proof.
  apply (handle_challenges_captcha_first SampleLife.env_captcha
           (Sample.running 1)).
  reflexivity.
Defined.

(** * Further properties of [close] *)

Lemma close_run (env : Env) (st : state) :
  browser st = Live ->
  browser_close env = Ok tt ->
  close env st =
    (Ok tt, mkState PyNone 0 (log st ++ [EvBrowserClose])).
Proof.
  intros Hb Hc. unfold close, bind, get_state, lift.
  rewrite Hb, Hc. reflexivity.
Qed.

(** X21: [close] can be called again: after a [close] that returned, a
    second one returns too, calls nothing and changes nothing. *)
Theorem close_twice (env : Env) (st : state) :
  browser st = Live ->
  browser_close env = Ok tt ->
  close env (snd (close env st)) = (Ok tt, snd (close env st)).
Proof.
  intros Hb Hc. rewrite (close_run env st Hb Hc). reflexivity.
Qed.

Lemma close_twice_witness :
  close (Sample.env_with (Sample.nav_status 200) "" false false)
    (snd (close (Sample.env_with (Sample.nav_status 200) "" false false)
            (Sample.running 1))) =
    (Ok tt, mkState PyNone 0 [EvBrowserClose]).
Proof.
  apply (close_twice (Sample.env_with (Sample.nav_status 200) "" false false)
           (Sample.running 1)); reflexivity.
Defined.

(** X22: when the browser's own [close()] raises, [close] raises the same
    exception and [self.browser] keeps the browser: the handle is cleared
    only after a close that returned, so the call can be tried again. *)
Theorem close_failure_keeps_browser (env : Env) (e : exn) (st : state) :
  browser st = Live ->
  browser_close env = Raise e ->
  close env st = (Raise e, st).
Proof.
  intros Hb Hc. unfold close, bind, get_state, lift.
  rewrite Hb, Hc. reflexivity.
Qed.

Lemma close_failure_keeps_browser_witness :
  close SampleLife.env_close_fails (Sample.running 1) =
    (Raise (OtherError "NetworkError"), Sample.running 1).
Proof.
  apply (close_failure_keeps_browser SampleLife.env_close_fails
           (OtherError "NetworkError") (Sample.running 1)); reflexivity.
Defined.

(** * Pages and the life cycle *)



(** * What the module as written can do *)

Section NeverReturns.

Variable env : Env.
Variable self : WebScraper.

Lemma never_bind_l {A B} (m : M A) (k : A -> M B) :
  never_returns m -> never_returns (bind m k).
Proof.
  intros H st. unfold bind. destruct (H st) as [e He].
  destruct (m st) as [[a|e'] st']; cbn [fst] in *; [discriminate|].
  now exists e'.
Qed.

Lemma never_bind_r {A B} (m : M A) (k : A -> M B) :
  (forall a, never_returns (k a)) -> never_returns (bind m k).
Proof.
  intros H st. unfold bind.
  destruct (m st) as [[a|e] st']; [apply H | now exists e].
Qed.

Lemma never_raise {A} (e : exn) : never_returns (@raise A e).
Proof. intros st. now exists e. Qed.

(** [_handle_anti_bot] never returns: what does not raise before it ends
    at the call of the method the class lacks. *)
Lemma handle_anti_bot_never_returns : never_returns (_handle_anti_bot env).
Proof.
  unfold _handle_anti_bot.
  apply never_bind_r; intros _. apply never_bind_r; intros _.
  apply never_bind_l. apply never_raise.
Qed.

Lemma scrape_body_never_returns (url : string) :
  never_returns (scrape_body env self url).
Proof.
  unfold scrape_body.
  apply never_bind_r; intros _. apply never_bind_r; intros _.
  apply never_bind_r; intros status.
  destruct (status >=? 400)%Z; [apply never_raise|].
  apply never_bind_l. apply handle_anti_bot_never_returns.
Qed.


End NeverReturns.

(** X25: as the module is written, [scrape] never returns a [WebContent]:
    every call raises, and what it raises is the [NameError] of the
    [except] clause, unless an exception outside the [Exception] hierarchy
    passed by the clause. *)
Theorem scrape_always_raises (env : Env) (self : WebScraper)
    (input : string) (st : state) :
  exists e,
    fst (scrape env self input st) = Raise e /\ scrape_failure e.
Proof.
  rewrite scrape_run. cbv zeta. unfold try_except.
  destruct (scrape_body_never_returns env self
              (fst (normalize_url (head env) input))
              (after_probes env input st)) as [e He].
  destruct (scrape_body env self _ _) as [[content|e'] st'];
    cbn [fst] in He; [discriminate|].
  destruct e'; cbn [is_Exception];
    try (rewrite scrape_handler_run; eexists; split;
         [reflexivity | now left]).
  eexists. split; [reflexivity|]. right. now eexists.
Qed.

